(** * doc-orchestrator-streamlit: a shallow embedding of [app.py]

    The page script of the application is modelled as two action handlers
    (the bodies of the "Extract" and "Send Alert Mail" buttons) running in a
    small state / trace / exception monad.  Python values are an inductive
    type, dicts are finite maps, strings are lists of Unicode code points and
    byte buffers are lists of bytes.  The library routines the script calls
    ([json.loads], [re.search], [bytes.decode], slicing, [str.strip]) are
    modelled as executable functions; the remote collaborators (the two PDF
    libraries, the chat-completion API, the webhook) are fields of a record
    of externals. *)

From Stdlib Require Import String Ascii.
From stdpp Require Import gmap list.

Local Open Scope N_scope.

(** ** Strings and byte buffers *)

(** A Python [str] is a sequence of code points; [bytes] is a sequence of
    integers below 256. *)
Abbreviation char := N (only parsing).
Abbreviation pystr := (list N) (only parsing).
Abbreviation bytes := (list N) (only parsing).

(** An ASCII literal as a Python string. *)
Definition str (s : string) : pystr :=
  map N_of_ascii (list_ascii_of_string s).

(** An ASCII literal in which the apostrophe stands for the double quote. *)
Definition dq (s : string) : pystr :=
  map (fun c => if c =? 39 then 34 else c) (str s).

(** [s[:stop]] for an arbitrary integer [stop]: a negative [stop] counts
    from the end of the sequence. *)
Definition slice_to {A} (stop : Z) (s : list A) : list A :=
  if (stop <? 0)%Z
  then take (Z.to_nat (Z.of_nat (length s) + stop)) s
  else take (Z.to_nat stop) s.

(** [s[start:]] and [s[start:start+n]] for non-negative indices. *)
Definition slice_from {A} (start : nat) (s : list A) : list A := drop start s.

(** [str.isspace] on one code point ([Py_UNICODE_ISSPACE]). *)
Definition isspace (c : char) : bool :=
  ((9 <=? c) && (c <=? 13)) || ((28 <=? c) && (c <=? 32))
  || (c =? 133) || (c =? 160) || (c =? 5760)
  || ((8192 <=? c) && (c <=? 8202))
  || (c =? 8232) || (c =? 8233) || (c =? 8239) || (c =? 8287) || (c =? 12288).

Fixpoint lstrip (s : pystr) : pystr :=
  match s with
  | c :: r => if isspace c then lstrip r else s
  | [] => []
  end.

Definition rstrip (s : pystr) : pystr := reverse (lstrip (reverse s)).

(** [s.strip()] *)
Definition strip (s : pystr) : pystr := rstrip (lstrip s).

(** [s.lower()]: only the ASCII letters are folded; no other code point has
    a lower-case form ending in one of [.pdf], which is all the script asks
    of the lowered name. *)
Definition lower (s : pystr) : pystr :=
  map (fun c => if (65 <=? c) && (c <=? 90) then c + 32 else c) s.

Fixpoint startswith (s p : pystr) : bool :=
  match p, s with
  | [], _ => true
  | a :: p', b :: s' => (a =? b) && startswith s' p'
  | _ :: _, [] => false
  end.

(** [s.endswith(suffix)] *)
Definition endswith (s suffix : pystr) : bool :=
  startswith (reverse s) (reverse suffix).

(** [sep.join(parts)] *)
Fixpoint join (sep : pystr) (parts : list pystr) : pystr :=
  match parts with
  | [] => []
  | [p] => p
  | p :: rest => p ++ sep ++ join sep rest
  end.

(** Decimal digits of a natural number, most significant first, with fuel
    bounding the number of digits. *)
Fixpoint digits_fuel (fuel : nat) (n : N) (acc : pystr) : pystr :=
  match fuel with
  | O => acc
  | S f =>
      let acc' := (48 + n mod 10) :: acc in
      if n / 10 =? 0 then acc' else digits_fuel f (n / 10) acc'
  end.

(** [str(n)] for a non-negative [int]. *)
Definition str_of_int (n : N) : pystr :=
  digits_fuel (S (N.to_nat (N.log2 n))) n [].

(** ** Python values *)

(** The values [json.loads] can build, which are also the values kept in
    the session state and posted to the webhook.  A [float] is kept as the
    literal it was read from. *)
#[warnings="-register-all"]
Inductive pyval : Type :=
| PyNone
| PyBool (b : bool)
| PyInt (z : Z)
| PyFloat (literal : pystr)
| PyStr (s : pystr)
| PyList (items : list pyval)
| PyDict (d : gmap (list N) pyval).

(** Exceptions (all of them subclasses of [Exception]). *)
Inductive exn : Type :=
| JSONDecodeError (doc : pystr)
| ValueError
| RecursionError
| TypeError
| UnicodeDecodeError
| AttributeError (obj : pyval)
| KeyError (key : pystr)
| LibraryError (msg : pystr).

(** The outcome of a call that may raise. *)
Inductive result (A : Type) : Type :=
| Ok (a : A)
| Raise (e : exn).
Arguments Ok {A} a.
Arguments Raise {A} e.

(** ** [json.loads]

    The scanner of the [json] package with its default settings.  The
    functions work on the part of the document that is still to be read and
    return the value together with what follows it.  Two things of the
    interpreter are left out: the limit on the depth of recursion (the model
    reads any nesting) and the rounding of floats (a float is its
    literal). *)

Inductive scan_error := BadJSON | TooManyDigits.

Inductive scan (A : Type) : Type :=
| Scanned (a : A) (rest : pystr)
| Failed (e : scan_error)
| NoFuel.
Arguments Scanned {A} a rest.
Arguments Failed {A} e.
Arguments NoFuel {A}.

(** [WHITESPACE = ' \t\n\r'] *)
Definition is_json_ws (c : char) : bool :=
  (c =? 32) || (c =? 9) || (c =? 10) || (c =? 13).

Fixpoint skip_ws (s : pystr) : pystr :=
  match s with
  | c :: r => if is_json_ws c then skip_ws r else s
  | [] => []
  end.

Definition is_digit (c : char) : bool := (48 <=? c) && (c <=? 57).

Definition hex_digit (c : char) : option N :=
  if is_digit c then Some (c - 48)
  else if (97 <=? c) && (c <=? 102) then Some (c - 87)
  else if (65 <=? c) && (c <=? 70) then Some (c - 55)
  else None.

(** The four hexadecimal digits of a [\uXXXX] escape. *)
Definition decode_uXXXX (a b c d : char) : option N :=
  match hex_digit a, hex_digit b, hex_digit c, hex_digit d with
  | Some x, Some y, Some z, Some w => Some (((x * 16 + y) * 16 + z) * 16 + w)
  | _, _, _, _ => None
  end.

Definition is_high_surrogate (u : N) : bool := (55296 <=? u) && (u <=? 56319).
Definition is_low_surrogate (u : N) : bool := (56320 <=? u) && (u <=? 57343).
Definition join_surrogates (hi lo : N) : N :=
  65536 + (N.lor (N.shiftl (hi - 55296) 10) (lo - 56320)).

(** The single-character escapes of [BACKSLASH]. *)
Definition unescape (e : char) : option char :=
  if e =? 34 then Some 34
  else if e =? 92 then Some 92
  else if e =? 47 then Some 47
  else if e =? 98 then Some 8
  else if e =? 102 then Some 12
  else if e =? 110 then Some 10
  else if e =? 114 then Some 13
  else if e =? 116 then Some 9
  else None.

(** [scanstring] in strict mode, entered after the opening quote; [acc]
    holds the characters read so far, last one first.  [None] stands for the
    decoder's errors: unterminated string, invalid escape, control
    character. *)
Fixpoint scanstring (s : pystr) (acc : pystr) : option (pystr * pystr) :=
  match s with
  | [] => None
  | c :: r =>
      if c =? 34 then Some (reverse acc, r)
      else if c =? 92 then
        match r with
        | [] => None
        | e :: r1 =>
            if e =? 117 then
              match r1 with
              | a :: b :: c1 :: d :: r2 =>
                  match decode_uXXXX a b c1 d with
                  | None => None
                  | Some u =>
                      if is_high_surrogate u then
                        match r2 with
                        | bs :: eu :: a2 :: b2 :: c2 :: d2 :: r3 =>
                            if (bs =? 92) && (eu =? 117) then
                              match decode_uXXXX a2 b2 c2 d2 with
                              | None => None
                              | Some u2 =>
                                  if is_low_surrogate u2
                                  then scanstring r3 (join_surrogates u u2 :: acc)
                                  else scanstring r2 (u :: acc)
                              end
                            else scanstring r2 (u :: acc)
                        | _ => scanstring r2 (u :: acc)
                        end
                      else scanstring r2 (u :: acc)
                  end
              | _ => None
              end
            else
              match unescape e with
              | Some x => scanstring r1 (x :: acc)
              | None => None
              end
        end
      else if c <? 32 then None
      else scanstring r (c :: acc)
  end.

(** *** Numbers

    An optional minus sign, then a single zero or a non-zero digit followed
    by digits; an optional fraction (a dot and at least one digit); an
    optional exponent (e or E, an optional sign, at least one digit). *)

Fixpoint span_digits (s : pystr) : pystr * pystr :=
  match s with
  | c :: r =>
      if is_digit c then let '(d, r') := span_digits r in (c :: d, r')
      else ([], s)
  | [] => ([], [])
  end.

(** The integer part, returned as (is negative, digits, rest). *)
Definition match_integer (s : pystr) : option (bool * pystr * pystr) :=
  let '(neg, r) :=
    match s with
    | c :: r => if c =? 45 then (true, r) else (false, s)
    | [] => (false, s)
    end in
  match r with
  | c :: r' =>
      if c =? 48 then Some (neg, [c], r')
      else if is_digit c then
        let '(d, r'') := span_digits r' in Some (neg, c :: d, r'')
      else None
  | [] => None
  end.

Definition match_frac (s : pystr) : pystr * pystr :=
  match s with
  | p :: c :: r =>
      if (p =? 46) && is_digit c
      then let '(d, r') := span_digits r in (p :: c :: d, r')
      else ([], s)
  | _ => ([], s)
  end.

Definition match_exp (s : pystr) : pystr * pystr :=
  match s with
  | e :: r =>
      if (e =? 101) || (e =? 69) then
        let '(sg, r1) :=
          match r with
          | c :: r1 => if (c =? 43) || (c =? 45) then ([c], r1) else ([], r)
          | [] => ([], r)
          end in
        match span_digits r1 with
        | ([], _) => ([], s)
        | (d, r2) => (e :: sg ++ d, r2)
        end
      else ([], s)
  | [] => ([], s)
  end.

(** [int(digits)] for a string of decimal digits. *)
Definition int_of_digits (d : pystr) : Z :=
  fold_left (fun acc c => acc * 10 + Z.of_N (c - 48))%Z d 0%Z.

(** The default of [sys.get_int_max_str_digits()]. *)
Definition int_max_str_digits : N := 4300.

Definition match_number (s : pystr) : scan pyval :=
  match match_integer s with
  | None => Failed BadJSON
  | Some (neg, d, r) =>
      let '(frac, r1) := match_frac r in
      let '(ex, r2) := match_exp r1 in
      let sign := if neg then [45] else [] in
      match frac, ex with
      | [], [] =>
          if int_max_str_digits <? N.of_nat (length d) then Failed TooManyDigits
          else Scanned (PyInt (if neg then - int_of_digits d else int_of_digits d)%Z) r2
      | _, _ => Scanned (PyFloat (sign ++ d ++ frac ++ ex)) r2
      end
  end.

(** The literals, the three constants and the numbers. *)
Definition scan_atom (s : pystr) : scan pyval :=
  if startswith s (str "null") then Scanned PyNone (drop 4 s)
  else if startswith s (str "true") then Scanned (PyBool true) (drop 4 s)
  else if startswith s (str "false") then Scanned (PyBool false) (drop 5 s)
  else if startswith s (str "NaN") then Scanned (PyFloat (str "NaN")) (drop 3 s)
  else if startswith s (str "Infinity") then Scanned (PyFloat (str "Infinity")) (drop 8 s)
  else if startswith s (str "-Infinity") then Scanned (PyFloat (str "-Infinity")) (drop 9 s)
  else match_number s.

(** *** Values, objects and arrays *)

Fixpoint scan_once (fuel : nat) (s : pystr) {struct fuel} : scan pyval :=
  match fuel with
  | O => NoFuel
  | S f =>
      match s with
      | [] => Failed BadJSON
      | c :: r =>
          if c =? 34 then
            match scanstring r [] with
            | Some (k, r') => Scanned (PyStr k) r'
            | None => Failed BadJSON
            end
          else if c =? 123 then JSONObject f r
          else if c =? 91 then JSONArray f r
          else scan_atom s
      end
  end

(** After the opening brace. *)
with JSONObject (fuel : nat) (s : pystr) {struct fuel} : scan pyval :=
  match fuel with
  | O => NoFuel
  | S f =>
      match skip_ws s with
      | c :: r =>
          if c =? 125 then Scanned (PyDict ∅) r
          else if c =? 34 then object_pairs f ∅ r
          else Failed BadJSON
      | [] => Failed BadJSON
      end
  end

(** After the opening quote of a key; [d] holds the pairs read so far. *)
with object_pairs (fuel : nat) (d : gmap (list N) pyval) (s : pystr)
    {struct fuel} : scan pyval :=
  match fuel with
  | O => NoFuel
  | S f =>
      match scanstring s [] with
      | None => Failed BadJSON
      | Some (key, r) =>
          match skip_ws r with
          | colon :: r1 =>
              if colon =? 58 then
                match scan_once f (skip_ws r1) with
                | Scanned v r2 =>
                    match skip_ws r2 with
                    | c :: r3 =>
                        if c =? 125 then Scanned (PyDict (<[key := v]> d)) r3
                        else if c =? 44 then
                          match skip_ws r3 with
                          | q :: r4 =>
                              if q =? 34 then object_pairs f (<[key := v]> d) r4
                              else Failed BadJSON
                          | [] => Failed BadJSON
                          end
                        else Failed BadJSON
                    | [] => Failed BadJSON
                    end
                | Failed e => Failed e
                | NoFuel => NoFuel
                end
              else Failed BadJSON
          | [] => Failed BadJSON
          end
      end
  end

(** After the opening bracket. *)
with JSONArray (fuel : nat) (s : pystr) {struct fuel} : scan pyval :=
  match fuel with
  | O => NoFuel
  | S f =>
      match skip_ws s with
      | c :: r =>
          if c =? 93 then Scanned (PyList []) r
          else array_items f [] (c :: r)
      | [] => Failed BadJSON
      end
  end

(** At the start of an item; [acc] holds the items read so far. *)
with array_items (fuel : nat) (acc : list pyval) (s : pystr)
    {struct fuel} : scan pyval :=
  match fuel with
  | O => NoFuel
  | S f =>
      match scan_once f s with
      | Scanned v r =>
          match skip_ws r with
          | c :: r1 =>
              if c =? 93 then Scanned (PyList (acc ++ [v])) r1
              else if c =? 44 then array_items f (acc ++ [v]) (skip_ws r1)
              else Failed BadJSON
          | [] => Failed BadJSON
          end
      | Failed e => Failed e
      | NoFuel => NoFuel
      end
  end.

(** [json.loads(s)] for a [str]: one value, surrounded by optional
    whitespace and nothing else. *)
Definition json_loads (s : pystr) : result pyval :=
  match scan_once (3 * length s + 1) (skip_ws s) with
  | Scanned v r =>
      match skip_ws r with
      | [] => Ok v
      | _ :: _ => Raise (JSONDecodeError s)
      end
  | Failed BadJSON => Raise (JSONDecodeError s)
  | Failed TooManyDigits => Raise ValueError
  | NoFuel => Raise RecursionError
  end.

(** ** [re.search(r"\{.*\}", content, flags=re.S)]

    With [re.S] the dot matches every character, and the star is greedy:
    the leftmost match starts at the first opening brace that has a closing
    brace after it and runs to the last closing brace.  If the first opening
    brace has no closing brace after it, no later one has. *)

(** The part of [s] that starts at the first occurrence of [c]. *)
Fixpoint from_first (c : char) (s : pystr) : pystr :=
  match s with
  | [] => []
  | x :: r => if x =? c then s else from_first c r
  end.

(** The longest prefix of [s] that ends with a closing brace. *)
Definition through_last_rbrace (s : pystr) : option pystr :=
  match from_first 125 (reverse s) with
  | [] => None
  | kept => Some (reverse kept)
  end.

(** [m.group(0)] of the search, [None] when there is no match. *)
Definition search_braces (content : pystr) : option pystr :=
  match from_first 123 content with
  | [] => None
  | lb :: r =>
      match through_last_rbrace r with
      | Some body => Some (lb :: body)
      | None => None
      end
  end.

(** ** [bytes.decode("utf-8", errors=...)]

    CPython's decoder: a well-formed sequence gives one code point; an
    invalid start byte is an error of one byte; an invalid continuation byte
    is an error covering the bytes of the sequence before it; a sequence cut
    short by the end of the buffer is an error covering the rest of the
    buffer.  The error handler decides what an error becomes. *)

Inductive error_handler := strict | ignore | replace.

Definition is_continuation (b : N) : bool := (128 <=? b) && (b <? 192).

(** What the handler makes of an error, [k] being the decoding of the
    bytes after the offending ones. *)
Definition on_error (errors : error_handler) (k : result pystr) : result pystr :=
  match errors with
  | strict => Raise UnicodeDecodeError
  | ignore => k
  | replace =>
      match k with
      | Ok s => Ok (65533 :: s)
      | Raise e => Raise e
      end
  end.

Definition emit_char (c : char) (k : result pystr) : result pystr :=
  match k with
  | Ok s => Ok (c :: s)
  | Raise e => Raise e
  end.

Fixpoint decode_utf8 (errors : error_handler) (s : bytes) : result pystr :=
  match s with
  | [] => Ok []
  | ch :: r =>
      if ch <? 128 then emit_char ch (decode_utf8 errors r)
      else if ch <? 194 then on_error errors (decode_utf8 errors r)
      else if ch <? 224 then
        match r with
        | [] => on_error errors (Ok [])
        | ch2 :: r2 =>
            if is_continuation ch2
            then emit_char (ch * 64 + ch2 - 12416) (decode_utf8 errors r2)
            else on_error errors (decode_utf8 errors r)
        end
      else if ch <? 240 then
        match r with
        | [] => on_error errors (Ok [])
        | ch2 :: r2 =>
            if negb (is_continuation ch2)
               || (if ch2 <? 160 then ch =? 224 else ch =? 237)
            then on_error errors (decode_utf8 errors r)
            else
              match r2 with
              | [] => on_error errors (Ok [])
              | ch3 :: r3 =>
                  if is_continuation ch3
                  then emit_char (ch * 4096 + ch2 * 64 + ch3 - 925824)
                         (decode_utf8 errors r3)
                  else on_error errors (decode_utf8 errors r2)
              end
        end
      else if ch <? 245 then
        match r with
        | [] => on_error errors (Ok [])
        | ch2 :: r2 =>
            if negb (is_continuation ch2)
               || (if ch2 <? 144 then ch =? 240 else ch =? 244)
            then on_error errors (decode_utf8 errors r)
            else
              match r2 with
              | [] => on_error errors (Ok [])
              | ch3 :: r3 =>
                  if is_continuation ch3 then
                    match r3 with
                    | [] => on_error errors (Ok [])
                    | ch4 :: r4 =>
                        if is_continuation ch4
                        then emit_char
                               (ch * 262144 + ch2 * 4096 + ch3 * 64 + ch4 - 63447168)
                               (decode_utf8 errors r4)
                        else on_error errors (decode_utf8 errors r3)
                    end
                  else on_error errors (decode_utf8 errors r2)
              end
        end
      else on_error errors (decode_utf8 errors r)
  end.

(** The UTF-8 form of one code point and of a string. *)
Definition utf8_encode_char (c : char) : bytes :=
  if c <? 128 then [c]
  else if c <? 2048 then [192 + c / 64; 128 + c mod 64]
  else if c <? 65536 then [224 + c / 4096; 128 + (c / 64) mod 64; 128 + c mod 64]
  else [240 + c / 262144; 128 + (c / 4096) mod 64; 128 + (c / 64) mod 64; 128 + c mod 64].

Definition utf8_encode (s : pystr) : bytes := concat (map utf8_encode_char s).

(** ** The script's monad

    A computation reads and updates the session state, appends to the trace
    of what the user and the network see, and finishes normally or with an
    exception.  Updates made before an exception stay in the state. *)

(** An HTTP response: [r.status_code] and [r.text]. *)
Record response := Response { status_code : N; text : pystr }.

(** What the script shows and which calls leave the process. *)
Inductive event : Type :=
| StSpinner (label : pystr)
| StError (body : pystr)
| StWarning (body : pystr)
| StSubheader (body : pystr)
| StWrite (v : pyval)
| StSuccess (v : pyval)
| StJson (v : pyval)
| PdfplumberOpen (file_bytes : bytes)
| FitzOpen (file_bytes : bytes)
| GroqCreate (model system user : pystr)
| RequestsPost (url : pystr) (payload : pyval) (timeout : N).

(** [st.session_state] *)
Abbreviation session := (gmap (list N) pyval) (only parsing).

Record run (A : Type) : Type :=
  Run { trace : list event; final : session; outcome : result A }.
Arguments Run {A} trace final outcome.
Arguments trace {A} r.
Arguments final {A} r.
Arguments outcome {A} r.

Definition M (A : Type) : Type := session -> run A.

Definition ret {A} (a : A) : M A := fun st => Run [] st (Ok a).

Definition raise {A} (e : exn) : M A := fun st => Run [] st (Raise e).

Definition bind {A B} (m : M A) (f : A -> M B) : M B := fun st =>
  match m st with
  | Run t st1 (Ok a) =>
      match f a st1 with
      | Run t' st2 o => Run (t ++ t') st2 o
      end
  | Run t st1 (Raise e) => Run t st1 (Raise e)
  end.

(** [try: m except Exception as e: handler e] *)
Definition try_except {A} (m : M A) (handler : exn -> M A) : M A := fun st =>
  match m st with
  | Run t st1 (Raise e) =>
      match handler e st1 with
      | Run t' st2 o => Run (t ++ t') st2 o
      end
  | done => done
  end.

Definition emit (ev : event) : M unit := fun st => Run [ev] st (Ok tt).

(** A pure call that may raise. *)
Definition lift {A} (r : result A) : M A := fun st => Run [] st r.

(** [st.session_state[key] = v] *)
Definition set_item (key : pystr) (v : pyval) : M unit := fun st =>
  Run [] (<[key := v]> st) (Ok tt).

(** [st.session_state[key]] *)
Definition get_item (key : pystr) : M pyval := fun st =>
  match st !! key with
  | Some v => Run [] st (Ok v)
  | None => Run [] st (Raise (KeyError key))
  end.

(** [key in st.session_state] *)
Definition contains (key : pystr) : M bool := fun st =>
  Run [] st (Ok (bool_decide (is_Some (st !! key)))).

Declare Scope script_scope.
Delimit Scope script_scope with script.
Notation "x <- m ;; k" := (bind m (fun x => k))
  (at level 100, m at next level, right associativity) : script_scope.
Notation "m ;; k" := (bind m (fun _ => k))
  (at level 100, right associativity) : script_scope.
Local Open Scope script_scope.

(** ** The collaborators outside the script *)

Record externals := {
  (** the body of method A: [pdfplumber.open] and [extract_text] of every
      page, [None] for a page without text *)
  pdfplumber_pages : bytes -> result (list (option pystr));
  (** the body of method B: [fitz.open] and [get_text("text")] of every page *)
  fitz_pages : bytes -> result (list pystr);
  (** [client.chat.completions.create(...)] followed by
      [resp.choices[0].message.content]; the content may be [None] *)
  groq_create : pystr -> pystr -> pystr -> result (option pystr);
  (** [requests.post(url, json=payload, timeout=...)] *)
  requests_post : pystr -> pyval -> N -> result response;
  (** [str(e)] for an exception *)
  str_exn : exn -> pystr
}.

(** ** Configuration *)

Record config := Config { GROQ_MODEL : pystr; N8N_WEBHOOK_URL : pystr }.

(** The secrets are read once; without an API key the script stops. *)
Definition load_config (secrets : gmap (list N) (list N)) : option config :=
  match secrets !! str "GROQ_API_KEY" with
  | None | Some [] => None
  | Some (_ :: _) =>
      Some {| GROQ_MODEL := default (str "llama-3.1-8b-instant") (secrets !! str "GROQ_MODEL");
              N8N_WEBHOOK_URL := default [] (secrets !! str "N8N_WEBHOOK_URL") |}
  end.

(** ** The script *)

(** [x or ""] for the text of a page. *)
Definition or_empty (t : option pystr) : pystr :=
  match t with
  | Some (c :: r) => c :: r
  | Some [] | None => []
  end.

(** [json.loads(content)]: a content of [None] is a [TypeError]. *)
Definition py_json_loads (content : option pystr) : result pyval :=
  match content with
  | Some s => json_loads s
  | None => Raise TypeError
  end.

(** [re.search(pattern, content, flags=re.S)], likewise. *)
Definition py_re_search (content : option pystr) : result (option pystr) :=
  match content with
  | Some s => Ok (search_braces s)
  | None => Raise TypeError
  end.

(** [{"raw": content}] *)
Definition raw_fallback (content : option pystr) : pyval :=
  PyDict {[ str "raw" := match content with Some s => PyStr s | None => PyNone end ]}.

(** The system instruction. *)
Definition system_prompt : pystr :=
  str "You are a precise JSON extraction engine. Return ONLY compact JSON. No extra text.".

(** The f-string of the user instruction, up to the question. *)
Definition prompt_head : pystr :=
  join [10]
    [ [];
      str "Return JSON with the following shape:";
      str "{";
      dq "  'key_points': [{'key': '" ++ [8230] ++ dq "', 'value': '" ++ [8230] ++ dq "'}],";
      dq "  'risk_level': 'Low|Medium|High',";
      dq "  'confidence': 0.0";
      str "}";
      [];
      str "Rules:";
      str "- Aim for 5" ++ [8211] ++ str "8 key_points if possible; fewer is OK if the document is short.";
      str "- Keep values concise.";
      str "- If 'risk' doesn't apply, set " ++ dq "'Low'.";
      str "- confidence " ++ [8712] ++ str " [0,1].";
      [];
      str "QUESTION:";
      [] ].

(** Between the question and the document text. *)
Definition prompt_mid : pystr :=
  join [10] [ []; []; str "DOCUMENT TEXT (truncated if long):"; [] ].

(** After the document text: the line break and the indentation of the
    closing quotes. *)
Definition prompt_tail : pystr := 10 :: str "        ".

(** [text[:20000]], the part of the text placed in the prompt. *)
Definition prompt_text (text : pystr) : pystr := slice_to 20000 text.

(** [text[:50000]], the part of the text kept in the session. *)
Definition retained_text (text : pystr) : pystr := slice_to 50000 text.

Definition user_prompt (question text : pystr) : pystr :=
  strip (prompt_head ++ question ++ prompt_mid ++ prompt_text text ++ prompt_tail).

(** [data.get(key, default)], an [AttributeError] when [data] is not a dict. *)
Definition py_get (data : pyval) (key : pystr) (dflt : pyval) : result pyval :=
  match data with
  | PyDict d => Ok (default dflt (d !! key))
  | other => Raise (AttributeError other)
  end.

Section Script.
Variable ext : externals.
Variable cfg : config.

(** Try pdfplumber first, fall back to PyMuPDF. *)
Definition extract_text_from_pdf (file_bytes : bytes) : M pystr :=
  try_except
    (emit (PdfplumberOpen file_bytes);;
     pages <- lift (pdfplumber_pages ext file_bytes);;
     ret (join [10] (map or_empty pages)))
    (fun _ =>
       emit (FitzOpen file_bytes);;
       text <- lift (fitz_pages ext file_bytes);;
       ret (join [10] text)).

Definition extract_text_from_txt (file_bytes : bytes) : result pystr :=
  decode_utf8 ignore file_bytes.

(** The second half of [ask_groq_json]: from the content of the response
    to the value returned. *)
Definition parse_content (content : option pystr) : M pyval :=
  try_except
    (lift (py_json_loads content))
    (fun _ =>
       m <- lift (py_re_search content);;
       match m with
       | Some group0 => lift (json_loads group0)
       | None => ret (raw_fallback content)
       end).

Definition ask_groq_json (system user : pystr) : M pyval :=
  emit (GroqCreate (GROQ_MODEL cfg) system user);;
  content <- lift (groq_create ext (GROQ_MODEL cfg) system user);;
  parse_content content.

(** The text of the uploaded file, by the suffix of its name. *)
Definition read_document (name : pystr) (raw : bytes) : M pystr :=
  if endswith (lower name) (str ".pdf")
  then extract_text_from_pdf raw
  else lift (extract_text_from_txt raw).

(** The body of the "Extract" button, for an uploaded file with the given
    name and bytes. *)
Definition extract_action (name : pystr) (raw : bytes) (question : pystr) : M unit :=
  emit (StSpinner (str "Reading + extracting..."));;
  text <- read_document name raw;;
  let system := system_prompt in
  let prompt := user_prompt question text in
  try_except
    (data <- ask_groq_json system prompt;;
     set_item (str "raw_text") (PyStr (retained_text text));;
     set_item (str "question") (PyStr question);;
     set_item (str "extracted_json") data)
    (fun e => emit (StError (str "Extraction failed: " ++ str_exn ext e))).

(** [{"status": f"HTTP {r.status_code}", "body": r.text}] *)
Definition synthesized (r : response) : pyval :=
  PyDict (<[ str "status" := PyStr (str "HTTP " ++ str_of_int (status_code r)) ]>
          (<[ str "body" := PyStr (text r) ]> ∅)).

(** [r.json()], with the synthesized mapping when it raises. *)
Definition response_data (r : response) : pyval :=
  match json_loads (text r) with
  | Ok v => v
  | Raise _ => synthesized r
  end.

(** The three sections shown for the webhook's answer. *)
Definition render (data : pyval) : M unit :=
  emit (StSubheader (str "Final Analytical Answer (from n8n)"));;
  a <- lift (py_get data (str "final_answer") (PyStr (str "_No answer returned_")));;
  emit (StWrite a);;
  emit (StSubheader (str "Generated Email Body"));;
  b <- lift (py_get data (str "email_body") (PyStr (str "_No email body returned_")));;
  emit (StWrite b);;
  emit (StSubheader (str "Email Automation Status"));;
  c <- lift (py_get data (str "status") (PyStr (str "Unknown")));;
  emit (StSuccess c).

Definition payload (question raw_text extracted_json : pyval) (recip : pystr) : pyval :=
  PyDict (<[ str "question" := question ]>
          (<[ str "raw_text" := raw_text ]>
           (<[ str "extracted_json" := extracted_json ]>
            (<[ str "recipient_email" := PyStr recip ]> ∅)))).

(** The body of the "Send Alert Mail" button. *)
Definition send_alert_action (recip : pystr) : M unit :=
  match N8N_WEBHOOK_URL cfg with
  | [] => emit (StWarning (str "N8N_WEBHOOK_URL is not set in secrets. Skipping call."))
  | url =>
      emit (StSpinner (str "Calling n8n webhook..."));;
      q <- get_item (str "question");;
      t <- get_item (str "raw_text");;
      j <- get_item (str "extracted_json");;
      let body := payload q t j recip in
      try_except
        (emit (RequestsPost url body 60);;
         r <- lift (requests_post ext url body 60);;
         render (response_data r))
        (fun e => emit (StError (str "Webhook failed: " ++ str_exn ext e)))
  end.

End Script.

(** ** The page

    One run of the script, from the widgets' values to what is shown.  The
    title, the caption and the input widgets produce no event. *)

(** What the user has entered and pressed when the script runs. *)
Record inputs := Inputs {
  (** [st.file_uploader]: the name and the bytes of the file, if any *)
  uploaded : option (list N * list N);
  (** the text input of the question *)
  question_box : list N;
  (** the "Extract" button was pressed *)
  extract_clicked : bool;
  (** the text input of the recipient *)
  recipient_box : list N;
  (** the "Send Alert Mail" button was pressed *)
  send_clicked : bool
}.

(** Truth value of a [str]. *)
Definition nonempty (s : pystr) : bool :=
  match s with [] => false | _ :: _ => true end.

(** [st.button(label, disabled=d)]: a disabled button is never pressed. *)
Definition button (clicked disabled : bool) : bool := clicked && negb disabled.

Section Page.
Variable ext : externals.
Variable cfg : config.

(** Stage 1: the "Extract" button, disabled unless there are a file and a
    question. *)
Definition extract_stage (inp : inputs) : M unit :=
  let ready := bool_decide (is_Some (uploaded inp)) && nonempty (question_box inp) in
  if button (extract_clicked inp) (negb ready) then
    match uploaded inp with
    | Some (name, raw) => extract_action ext cfg name raw (question_box inp)
    | None => raise (AttributeError PyNone)
    end
  else ret tt.

(** Stage 2: the extracted JSON and the alert form, shown once the session
    holds an extraction.  The recipient's widget has the key
    [recipient_email], under which its value is kept in the session. *)
Definition alert_stage (inp : inputs) : M unit :=
  shown <- contains (str "extracted_json");;
  if shown then
    emit (StSubheader (str "Structured Data Extracted (JSON)"));;
    j <- get_item (str "extracted_json");;
    emit (StJson j);;
    emit (StSubheader (str "Send Conditional Alert Email (via n8n)"));;
    set_item (str "recipient_email") (PyStr (recipient_box inp));;
    if button (send_clicked inp) (negb (nonempty (recipient_box inp)))
    then send_alert_action ext cfg (recipient_box inp)
    else ret tt
  else ret tt.

Definition page (inp : inputs) : M unit :=
  extract_stage inp;; alert_stage inp.

End Page.


(** Events that leave the process. *)
Definition is_llm_call (ev : event) : bool :=
  match ev with GroqCreate _ _ _ => true | _ => false end.

Definition is_pdf_call (ev : event) : bool :=
  match ev with PdfplumberOpen _ | FitzOpen _ => true | _ => false end.

(** Unicode scalar values: code points that are not surrogates. *)
Definition is_scalar (c : char) : bool :=
  (c <? 55296) || ((57344 <=? c) && (c <? 1114112)).

(** The three fields of an extraction are in the session together. *)
Definition consistent (st : gmap (list N) pyval) : Prop :=
  is_Some (st !! str "extracted_json") ->
  is_Some (st !! str "question") /\ is_Some (st !! str "raw_text").

(** ** Vocabulary of the statements *)

(** What [render] shows for a mapping: each of the three keys, or its
    placeholder. *)
Definition rendered (d : gmap (list N) pyval) : list event :=
  [ StSubheader (str "Final Analytical Answer (from n8n)");
    StWrite (default (PyStr (str "_No answer returned_")) (d !! str "final_answer"));
    StSubheader (str "Generated Email Body");
    StWrite (default (PyStr (str "_No email body returned_")) (d !! str "email_body"));
    StSubheader (str "Email Automation Status");
    StSuccess (default (PyStr (str "Unknown")) (d !! str "status")) ].

Definition is_error (ev : event) : bool :=
  match ev with StError _ => true | _ => false end.

Definition is_post (ev : event) : bool :=
  match ev with RequestsPost _ _ _ => true | _ => false end.

(** ** Concrete collaborators, for the examples *)

(** [str(e)] of the examples: the message of a library error, the name of
    the class otherwise. *)
Definition show_exn (e : exn) : pystr :=
  match e with
  | JSONDecodeError _ => str "JSONDecodeError"
  | ValueError => str "ValueError"
  | RecursionError => str "RecursionError"
  | TypeError => str "TypeError"
  | UnicodeDecodeError => str "UnicodeDecodeError"
  | AttributeError _ => str "AttributeError"
  | KeyError _ => str "KeyError"
  | LibraryError msg => msg
  end.

(** Collaborators that answer every call the same way. *)
Definition fixed_world
    (plumber : result (list (option pystr))) (fitz : result (list pystr))
    (content : result (option pystr)) (answer : result response) : externals :=
  {| pdfplumber_pages := fun _ => plumber;
     fitz_pages := fun _ => fitz;
     groq_create := fun _ _ _ => content;
     requests_post := fun _ _ _ => answer;
     str_exn := show_exn |}.

(** A file that neither PDF library can open. *)
Definition broken_pdf_world : externals :=
  fixed_world (Raise (LibraryError (str "No /Root object! - Is this really a PDF?")))
              (Raise (LibraryError (str "Failed to open stream")))
              (Ok (Some (dq "{'risk_level':'Low'}")))
              (Ok (Response 200 (dq "{'status':'sent'}"))).

(** A scanned PDF that only the fallback can read; its second page is blank. *)
Definition fallback_pdf_world : externals :=
  fixed_world (Raise (LibraryError (str "Unexpected EOF")))
              (Ok [str "page one"; []; str "page three"])
              (Ok (Some (dq "{'risk_level':'Low'}")))
              (Ok (Response 200 (dq "{'status':'sent'}"))).

(** A webhook that answers with a page of HTML and status 502. *)
Definition bad_gateway_world : externals :=
  fixed_world (Ok []) (Ok [])
              (Ok (Some (dq "{'risk_level':'Low'}")))
              (Ok (Response 502 (str "<html>Bad Gateway</html>"))).

(** A webhook that answers with a JSON array. *)
Definition array_answer_world : externals :=
  fixed_world (Ok []) (Ok [])
              (Ok (Some (dq "{'risk_level':'Low'}")))
              (Ok (Response 200 (str "[]"))).

(** A webhook that answers with a JSON object and status 500. *)
Definition server_error_world : externals :=
  fixed_world (Ok []) (Ok [])
              (Ok (Some (dq "{'risk_level':'Low'}")))
              (Ok (Response 500 (dq "{'status':'queued'}"))).

(** A model whose answer has two objects side by side. *)
Definition chatty_model_world : externals :=
  fixed_world (Ok []) (Ok [])
              (Ok (Some (dq "{'a': 1} and {'b': 2}")))
              (Ok (Response 200 (dq "{'status':'sent'}"))).

(** The scenario of the skills: the model lists two skills, the webhook
    queues the mail. *)
Definition skills_answer : pystr :=
  dq "{'key_points':[{'key':'skill','value':'Python'},{'key':'skill','value':'Go'}],'risk_level':'Low','confidence':0.9}".

Definition skills_json : pyval :=
  PyDict
    (<[ str "key_points" :=
          PyList [ PyDict (<[ str "key" := PyStr (str "skill") ]>
                            (<[ str "value" := PyStr (str "Python") ]> ∅));
                   PyDict (<[ str "key" := PyStr (str "skill") ]>
                            (<[ str "value" := PyStr (str "Go") ]> ∅)) ] ]>
     (<[ str "risk_level" := PyStr (str "Low") ]>
      (<[ str "confidence" := PyFloat (str "0.9") ]> ∅))).

Definition skills_world : externals :=
  fixed_world (Ok []) (Ok [])
              (Ok (Some skills_answer))
              (Ok (Response 200 (dq "{'status':'queued'}"))).

(** A model whose message has no content. *)
Definition silent_model_world : externals :=
  fixed_world (Ok []) (Ok [])
              (Ok None)
              (Ok (Response 200 (dq "{'status':'sent'}"))).

(** A PDF with three pages, the second without text. *)
Definition layout_pdf_world : externals :=
  fixed_world (Ok [Some (str "page one"); None; Some (str "page three")])
              (Ok [str "never used"])
              (Ok (Some (dq "{'risk_level':'Low'}")))
              (Ok (Response 200 (dq "{'status':'sent'}"))).

Definition demo_config : config :=
  {| GROQ_MODEL := str "llama-3.1-8b-instant";
     N8N_WEBHOOK_URL := str "https://n8n.example/webhook/alert" |}.

Definition demo_secrets : gmap (list N) (list N) :=
  {[ str "GROQ_API_KEY" := str "gsk_test" ]}.

(** A session after one successful extraction. *)
Definition demo_session : gmap (list N) pyval :=
  <[str "extracted_json" := PyDict {[ str "risk_level" := PyStr (str "Low") ]}]>
    (<[str "question" := PyStr (str "List the skills mentioned.")]>
      (<[str "raw_text" := PyStr (str "Alice has Python and Go skills.")]> ∅)).

(** A visit in which a text file and a question are entered and "Extract"
    is pressed. *)
Definition extract_visit : inputs :=
  {| uploaded := Some (str "cv.txt", str "Alice has Python and Go skills.");
     question_box := str "List the skills mentioned.";
     extract_clicked := true;
     recipient_box := [];
     send_clicked := false |}.

(** A visit in which "Extract" is pressed although no question is entered. *)
Definition no_question_visit : inputs :=
  {| uploaded := Some (str "cv.txt", str "Alice has Python and Go skills.");
     question_box := [];
     extract_clicked := true;
     recipient_box := str "ops@example.com";
     send_clicked := true |}.

(** A visit in which only the recipient is typed. *)
Definition typing_visit : inputs :=
  {| uploaded := None;
     question_box := str "List the skills mentioned.";
     extract_clicked := false;
     recipient_box := str "ops@example.com";
     send_clicked := false |}.

(** The bytes of a text file of 50,001 letters. *)
Definition long_file : bytes := replicate (N.to_nat 50001) 97.

(** Distinct keys of the session state. *)
Ltac distinct_keys := let H := fresh in intros H; vm_compute in H; discriminate H.

(** Steps of the two inductions on the decoder: the bytes of an error are
    deleted; the buffer ends; the strict decoder stops or goes on. *)
Ltac skip_bytes IH rest :=
  let s := fresh "s" in
  destruct (IH rest) as (s & ? & ? & ?); [simpl in *; lia|];
  exists s; split; [done|]; split;
    [repeat (first [assumption | apply sublist_cons]) | done].

Ltac end_of_buffer :=
  exists []; split; [done|]; split; [apply sublist_nil_l | done].


(** * Properties *)

(** ** Slicing and stripping *)

Lemma slice_to_nonneg {A} (n : Z) (s : list A) :
  (0 <= n)%Z -> slice_to n s = take (Z.to_nat n) s.
Proof. intros Hn. unfold slice_to. destruct (Z.ltb_spec n 0); [lia | done]. Qed.

Lemma slice_to_length {A} (n : Z) (s : list A) :
  (0 <= n)%Z -> (Z.of_nat (length (slice_to n s)) <= n)%Z.
Proof. intros Hn. rewrite slice_to_nonneg, length_take by done. lia. Qed.

Lemma slice_to_prefix {A} (m n : Z) (s : list A) :
  (0 <= m <= n)%Z -> slice_to m s `prefix_of` slice_to n s.
Proof.
  intros Hmn. rewrite !slice_to_nonneg by lia.
  exists (take (Z.to_nat n - Z.to_nat m) (drop (Z.to_nat m) s)).
  rewrite take_take_drop. f_equal. lia.
Qed.

Lemma slice_to_prefix_self {A} (n : Z) (s : list A) : slice_to n s `prefix_of` s.
Proof. unfold slice_to. destruct (n <? 0)%Z; apply prefix_take. Qed.

Lemma slice_to_short {A} (n : Z) (s : list A) :
  (Z.of_nat (length s) <= n)%Z -> slice_to n s = s.
Proof.
  intros Hn. rewrite slice_to_nonneg by lia. apply take_ge. lia.
Qed.

Lemma slice_to_long {A} (n : Z) (s : list A) :
  (0 <= n < Z.of_nat (length s))%Z -> slice_to n s <> s.
Proof.
  intros Hn Heq. apply (f_equal length) in Heq.
  rewrite slice_to_nonneg, length_take in Heq by lia. lia.
Qed.

Lemma lstrip_suffix (s : pystr) : lstrip s `suffix_of` s.
Proof.
  induction s as [|c r IH]; simpl; [done|].
  destruct (isspace c); [|done]. by apply suffix_cons_r.
Qed.

Lemma lstrip_length (s : pystr) : (length (lstrip s) <= length s)%nat.
Proof. apply suffix_length, lstrip_suffix. Qed.

Lemma rstrip_prefix (s : pystr) : rstrip s `prefix_of` s.
Proof.
  unfold rstrip. destruct (lstrip_suffix (reverse s)) as [k Hk].
  exists (reverse k). apply (inj reverse).
  by rewrite reverse_app, !reverse_involutive.
Qed.

Lemma strip_length (s : pystr) : (length (strip s) <= length s)%nat.
Proof.
  unfold strip. etrans; [apply prefix_length, rstrip_prefix | apply lstrip_length].
Qed.

(** The first character of a stripped string is not a space. *)
Lemma lstrip_head (s : pystr) c r : lstrip s = c :: r -> isspace c = false.
Proof.
  induction s as [|x s IH]; simpl; [done|].
  destruct (isspace x) eqn:Hx; [done|]. intros [= <- _]. done.
Qed.

(** ** The monad *)

Lemma bind_ok {A B} (m : M A) (f : A -> M B) st t st1 a :
  m st = Run t st1 (Ok a) ->
  bind m f st = Run (t ++ trace (f a st1)) (final (f a st1)) (outcome (f a st1)).
Proof. intros H. unfold bind. rewrite H. by destruct (f a st1). Qed.

Lemma bind_raise {A B} (m : M A) (f : A -> M B) st t st1 e :
  m st = Run t st1 (Raise e) -> bind m f st = Run t st1 (Raise e).
Proof. intros H. unfold bind. by rewrite H. Qed.

Lemma try_except_ok {A} (m : M A) h st t st1 a :
  m st = Run t st1 (Ok a) -> try_except m h st = Run t st1 (Ok a).
Proof. intros H. unfold try_except. by rewrite H. Qed.

Lemma try_except_raise {A} (m : M A) h st t st1 e :
  m st = Run t st1 (Raise e) ->
  try_except m h st = Run (t ++ trace (h e st1)) (final (h e st1)) (outcome (h e st1)).
Proof. intros H. unfold try_except. rewrite H. by destruct (h e st1). Qed.

Lemma raw_text_ne_question : str "raw_text" <> str "question".
Proof. distinct_keys. Qed.
Lemma raw_text_ne_extracted_json : str "raw_text" <> str "extracted_json".
Proof. distinct_keys. Qed.
Lemma question_ne_extracted_json : str "question" <> str "extracted_json".
Proof. distinct_keys. Qed.

(** ** What each part of the script does *)

Section ScriptFacts.
Variable ext : externals.
Variable cfg : config.

(** The parsing phase leaves the state and the trace alone; its outcome is
    the first parse, then the parse of the braced block, then the raw
    fallback. *)
Lemma parse_content_run (c : pystr) st :
  parse_content (Some c) st =
  Run [] st
    match json_loads c with
    | Ok v => Ok v
    | Raise _ =>
        match search_braces c with
        | Some group0 => json_loads group0
        | None => Ok (raw_fallback (Some c))
        end
    end.
Proof.
  unfold parse_content, try_except, lift, bind, ret; simpl.
  destruct (json_loads c) as [v|e]; [done|].
  destruct (search_braces c) as [g|]; simpl; [|done].
  by destruct (json_loads g).
Qed.

Lemma parse_content_none st :
  parse_content None st = Run [] st (Raise TypeError).
Proof. reflexivity. Qed.

Lemma ask_groq_json_run system user st :
  ask_groq_json ext cfg system user st =
  Run [GroqCreate (GROQ_MODEL cfg) system user] st
    match groq_create ext (GROQ_MODEL cfg) system user with
    | Ok content => outcome (parse_content content st)
    | Raise e => Raise e
    end.
Proof.
  unfold ask_groq_json, bind, emit, lift; simpl.
  destruct (groq_create _ _ _ _) as [[c|]|e]; simpl; [| done | done].
  by rewrite parse_content_run.
Qed.

Lemma extract_text_from_pdf_run file_bytes st :
  extract_text_from_pdf ext file_bytes st =
  match pdfplumber_pages ext file_bytes with
  | Ok pages =>
      Run [PdfplumberOpen file_bytes] st (Ok (join [10] (map or_empty pages)))
  | Raise _ =>
      Run [PdfplumberOpen file_bytes; FitzOpen file_bytes] st
        match fitz_pages ext file_bytes with
        | Ok texts => Ok (join [10] texts)
        | Raise e => Raise e
        end
  end.
Proof.
  unfold extract_text_from_pdf, try_except, bind, emit, lift, ret; simpl.
  destruct (pdfplumber_pages ext file_bytes); simpl; [done|].
  by destruct (fitz_pages ext file_bytes).
Qed.

Lemma read_document_final name raw st :
  final (read_document ext name raw st) = st.
Proof.
  unfold read_document. destruct (endswith _ _); [|done].
  rewrite extract_text_from_pdf_run. by destruct (pdfplumber_pages ext raw).
Qed.

(** The events of reading a document are calls to the PDF libraries. *)
Lemma read_document_trace name raw st ev :
  ev ∈ trace (read_document ext name raw st) ->
  ev = PdfplumberOpen raw \/ ev = FitzOpen raw.
Proof.
  unfold read_document. destruct (endswith _ _); simpl.
  - rewrite extract_text_from_pdf_run.
    destruct (pdfplumber_pages ext raw); simpl;
      rewrite ?elem_of_cons, elem_of_nil; tauto.
  - rewrite elem_of_nil. tauto.
Qed.

(** The run of the "Extract" action, by the outcome of its two phases. *)
Lemma extract_action_run name raw question st :
  extract_action ext cfg name raw question st =
  let doc := read_document ext name raw st in
  match outcome doc with
  | Raise e =>
      Run (StSpinner (str "Reading + extracting...") :: trace doc) st (Raise e)
  | Ok text =>
      let prompt := user_prompt question text in
      let ask := ask_groq_json ext cfg system_prompt prompt st in
      match outcome ask with
      | Ok data =>
          Run (StSpinner (str "Reading + extracting...") :: trace doc ++ trace ask)
            (<[str "extracted_json" := data]>
              (<[str "question" := PyStr question]>
                (<[str "raw_text" := PyStr (retained_text text)]> st)))
            (Ok tt)
      | Raise e =>
          Run (StSpinner (str "Reading + extracting...") :: trace doc ++ trace ask
                 ++ [StError (str "Extraction failed: " ++ str_exn ext e)])
            st (Ok tt)
      end
  end.
Proof.
  pose proof (read_document_final name raw st) as Hfin.
  unfold extract_action, bind at 1, emit at 1.
  unfold bind at 1.
  destruct (read_document ext name raw st) as [t st1 [text|e]];
    simpl in *; subst st1; [|done].
  unfold try_except, bind at 1.
  rewrite ask_groq_json_run; simpl.
  destruct (groq_create _ _ _ _) as [content|e]; simpl.
  - destruct (outcome (parse_content content st)); simpl; [|done].
    unfold bind, set_item; simpl. done.
  - done.
Qed.

End ScriptFacts.

(** ** The "Send Alert Mail" action *)

Section AlertFacts.
Variable ext : externals.
Variable cfg : config.

Lemma render_dict d st : render (PyDict d) st = Run (rendered d) st (Ok tt).
Proof. reflexivity. Qed.

(** Anything but a mapping has no [get]. *)
Lemma render_other data st :
  (forall d, data <> PyDict d) ->
  render data st =
  Run [StSubheader (str "Final Analytical Answer (from n8n)")] st
    (Raise (AttributeError data)).
Proof. intros Hd. destruct data; try reflexivity. by destruct (Hd d). Qed.

(** The run of the action once the webhook is configured and the session
    holds an extraction. *)
Lemma send_alert_action_run recip st q t j :
  N8N_WEBHOOK_URL cfg <> [] ->
  st !! str "question" = Some q ->
  st !! str "raw_text" = Some t ->
  st !! str "extracted_json" = Some j ->
  let url := N8N_WEBHOOK_URL cfg in
  let body := payload q t j recip in
  send_alert_action ext cfg recip st =
  match requests_post ext url body 60 with
  | Raise e =>
      Run [StSpinner (str "Calling n8n webhook..."); RequestsPost url body 60;
           StError (str "Webhook failed: " ++ str_exn ext e)] st (Ok tt)
  | Ok r =>
      let shown := render (response_data r) st in
      match outcome shown with
      | Ok _ =>
          Run (StSpinner (str "Calling n8n webhook...") :: RequestsPost url body 60
               :: trace shown) st (Ok tt)
      | Raise e =>
          Run (StSpinner (str "Calling n8n webhook...") :: RequestsPost url body 60
               :: trace shown ++ [StError (str "Webhook failed: " ++ str_exn ext e)])
            st (Ok tt)
      end
  end.
Proof.
  intros Hurl Hq Ht Hj url body. unfold send_alert_action.
  fold url. destruct url as [|c u] eqn:Eu; [done|]. rewrite <- Eu.
  unfold bind at 1, emit at 1. unfold bind at 1, get_item at 1. rewrite Hq.
  unfold bind at 1, get_item at 1. rewrite Ht.
  unfold bind at 1, get_item at 1. rewrite Hj.
  fold body. unfold try_except, bind at 1, emit at 1.
  unfold bind at 1, lift at 1.
  destruct (requests_post ext url body 60) as [r|e]; simpl; [|done].
  destruct (response_data r) as [| | | | | |d]; try reflexivity.
Qed.

End AlertFacts.

(** ** The parsing phase of [ask_groq_json] *)

Lemma json_loads_risk_level :
  json_loads (dq "{'risk_level':'Low'}")
  = Ok (PyDict {[ str "risk_level" := PyStr (str "Low") ]}).
Proof. vm_compute. reflexivity. Qed.

Lemma json_loads_prose_fails :
  json_loads (dq "Here it is: {'a':1} thanks")
  = Raise (JSONDecodeError (dq "Here it is: {'a':1} thanks")).
Proof. vm_compute. reflexivity. Qed.

Lemma search_braces_prose :
  search_braces (dq "Here it is: {'a':1} thanks") = Some (dq "{'a':1}").
Proof. vm_compute. reflexivity. Qed.

Lemma json_loads_a_1 :
  json_loads (dq "{'a':1}") = Ok (PyDict {[ str "a" := PyInt 1 ]}).
Proof. vm_compute. reflexivity. Qed.

Lemma json_loads_not_json :
  json_loads (str "not json at all") = Raise (JSONDecodeError (str "not json at all")).
Proof. vm_compute. reflexivity. Qed.

Lemma search_braces_not_json : search_braces (str "not json at all") = None.
Proof. vm_compute. reflexivity. Qed.

Lemma json_loads_two_objects :
  json_loads (dq "{'a': 1} and {'b': 2}")
  = Raise (JSONDecodeError (dq "{'a': 1} and {'b': 2}")).
Proof. vm_compute. reflexivity. Qed.

Lemma search_braces_two_objects :
  search_braces (dq "{'a': 1} and {'b': 2}") = Some (dq "{'a': 1} and {'b': 2}").
Proof. vm_compute. reflexivity. Qed.

(** C1, on the code: when the model answers with two objects side by side,
    the first parse fails, the braced block found by the search is the whole
    answer, and the second [json.loads] raises out of the parsing phase; the
    result is not the mapping from [raw] to the content. *)
Theorem parse_content_raises_on_unparsable_block (st : gmap (list N) pyval) :
  let content := dq "{'a': 1} and {'b': 2}" in
  search_braces content = Some content /\
  parse_content (Some content) st = Run [] st (Raise (JSONDecodeError content)) /\
  outcome (parse_content (Some content) st) <> Ok (raw_fallback (Some content)).
Proof.
  intros content. split; [apply search_braces_two_objects|].
  assert (parse_content (Some content) st = Run [] st (Raise (JSONDecodeError content))) as H.
  { rewrite parse_content_run. subst content.
    by rewrite json_loads_two_objects, search_braces_two_objects, json_loads_two_objects. }
  split; [done|]. by rewrite H.
Qed.

(** C6: the three contents of the round-trip examples parse to the mapping
    with [risk_level], to the mapping with [a], and to the raw fallback. *)
Theorem parse_content_round_trip (st : gmap (list N) pyval) :
  parse_content (Some (dq "{'risk_level':'Low'}")) st
    = Run [] st (Ok (PyDict {[ str "risk_level" := PyStr (str "Low") ]})) /\
  parse_content (Some (dq "Here it is: {'a':1} thanks")) st
    = Run [] st (Ok (PyDict {[ str "a" := PyInt 1 ]})) /\
  parse_content (Some (str "not json at all")) st
    = Run [] st (Ok (PyDict {[ str "raw" := PyStr (str "not json at all") ]})).
Proof.
  rewrite !parse_content_run.
  rewrite json_loads_risk_level, json_loads_prose_fails, search_braces_prose,
    json_loads_a_1, json_loads_not_json, search_braces_not_json.
  done.
Qed.

(** ** Truncation *)

(** The two slices of the text: the one for the prompt has at most 20,000
    characters, the one for the session at most 50,000, and the first is a
    prefix of the second, which is a prefix of the text; the prompt itself is
    no longer than its fixed parts, the question and 20,000 characters. *)
Theorem truncation_invariant (question text : list N) :
  (Z.of_nat (length (prompt_text text)) <= 20000)%Z /\
  (Z.of_nat (length (retained_text text)) <= 50000)%Z /\
  prompt_text text `prefix_of` retained_text text /\
  retained_text text `prefix_of` text /\
  (Z.of_nat (length (user_prompt question text))
   <= Z.of_nat (length prompt_head + length question + length prompt_mid
                + length prompt_tail) + 20000)%Z.
Proof.
  split; [apply slice_to_length; lia|].
  split; [apply slice_to_length; lia|].
  split; [apply slice_to_prefix; lia|].
  split; [apply slice_to_prefix_self|].
  pose proof (slice_to_length 20000 text ltac:(lia)) as Hp.
  unfold user_prompt.
  pose proof (strip_length (prompt_head ++ question ++ prompt_mid
                            ++ prompt_text text ++ prompt_tail)) as Hs.
  rewrite !length_app in Hs. fold (prompt_text text) in Hp. lia.
Qed.

(** ** The webhook that is not configured *)

(** C7: with the webhook URL absent from the secrets or empty, the action
    shows the warning and does nothing else: no request is posted and the
    session is as before. *)
Theorem send_alert_skipped_without_webhook
    (ext : externals) (secrets : gmap (list N) (list N)) (cfg : config)
    (recip : list N) (st : gmap (list N) pyval) :
  load_config secrets = Some cfg ->
  secrets !! str "N8N_WEBHOOK_URL" = None \/ secrets !! str "N8N_WEBHOOK_URL" = Some [] ->
  send_alert_action ext cfg recip st
  = Run [StWarning (str "N8N_WEBHOOK_URL is not set in secrets. Skipping call.")]
        st (Ok tt).
Proof.
  intros Hcfg Hurl. unfold load_config in Hcfg.
  destruct (secrets !! str "GROQ_API_KEY") as [[|k ks]|]; try done.
  injection Hcfg as <-. unfold send_alert_action; simpl.
  by destruct Hurl as [-> | ->].
Qed.

Lemma send_alert_skipped_without_webhook_witness :
  send_alert_action broken_pdf_world
    {| GROQ_MODEL := str "llama-3.1-8b-instant"; N8N_WEBHOOK_URL := [] |}
    (str "ops@example.com") demo_session
  = Run [StWarning (str "N8N_WEBHOOK_URL is not set in secrets. Skipping call.")]
        demo_session (Ok tt).
Proof.
  apply (send_alert_skipped_without_webhook broken_pdf_world demo_secrets).
  - reflexivity.
  - left. reflexivity.
Defined.

(** ** The PDF fallback *)

(** C4, as the code has it: when the layout-aware method raises, the
    fallback method is called once and its outcome is the outcome of
    [extract_text_from_pdf]: the page texts joined with a newline when it
    succeeds, its own exception when it raises too. *)
Theorem extract_text_from_pdf_falls_back
    (ext : externals) (file_bytes : list N) (st : gmap (list N) pyval) (e : exn) :
  pdfplumber_pages ext file_bytes = Raise e ->
  extract_text_from_pdf ext file_bytes st
  = Run [PdfplumberOpen file_bytes; FitzOpen file_bytes] st
      match fitz_pages ext file_bytes with
      | Ok texts => Ok (join [10] texts)
      | Raise e' => Raise e'
      end.
Proof. intros H. rewrite extract_text_from_pdf_run. by rewrite H. Qed.

Lemma extract_text_from_pdf_falls_back_witness :
  extract_text_from_pdf fallback_pdf_world (str "%PDF-1.4") ∅
  = Run [PdfplumberOpen (str "%PDF-1.4"); FitzOpen (str "%PDF-1.4")] ∅
      (Ok (str "page one" ++ [10; 10] ++ str "page three")).
Proof.
  exact (extract_text_from_pdf_falls_back fallback_pdf_world (str "%PDF-1.4") ∅
           (LibraryError (str "Unexpected EOF")) eq_refl).
Defined.

(** C4, as stated, fails on a file neither library can open: the layout-aware
    method raises, the fallback raises too, and its exception leaves
    [extract_text_from_pdf]. *)
Lemma extract_text_from_pdf_both_fail :
  pdfplumber_pages broken_pdf_world (str "not a pdf")
    = Raise (LibraryError (str "No /Root object! - Is this really a PDF?")) /\
  extract_text_from_pdf broken_pdf_world (str "not a pdf") ∅
    = Run [PdfplumberOpen (str "not a pdf"); FitzOpen (str "not a pdf")] ∅
        (Raise (LibraryError (str "Failed to open stream"))).
Proof. split; reflexivity. Qed.

(** ** The "Extract" action *)

(** C2, as stated, fails on a file neither PDF library can open: the
    exception of the extraction leaves the action, no error message is
    shown by it. *)
Lemma extract_action_pdf_failure_uncaught :
  extract_action broken_pdf_world demo_config (str "scan.PDF") (str "not a pdf")
    (str "List the skills mentioned.") ∅
  = Run [StSpinner (str "Reading + extracting...");
         PdfplumberOpen (str "not a pdf"); FitzOpen (str "not a pdf")] ∅
      (Raise (LibraryError (str "Failed to open stream"))).
Proof. reflexivity. Qed.

(** C2, as the code has it.  An exception of the text extraction leaves the
    action uncaught, without an error message from the action and with the
    session unchanged.  An exception of the call to the model or of the
    parsing of its answer is caught: the action ends normally, its last
    event is the error message and the session is unchanged.  On success the
    three fields are set together and nothing else changes. *)
Theorem extract_action_error_handling
    (ext : externals) (cfg : config) (name raw question : list N)
    (st : gmap (list N) pyval) :
  let r := extract_action ext cfg name raw question st in
  match outcome (read_document ext name raw st) with
  | Raise e =>
      outcome r = Raise e /\ final r = st /\
      Forall (fun ev => is_error ev = false) (trace r)
  | Ok text =>
      match outcome (ask_groq_json ext cfg system_prompt (user_prompt question text) st) with
      | Raise e =>
          outcome r = Ok tt /\ final r = st /\
          exists before,
            trace r = before ++ [StError (str "Extraction failed: " ++ str_exn ext e)] /\
            Forall (fun ev => is_error ev = false) before
      | Ok data =>
          outcome r = Ok tt /\
          final r !! str "raw_text" = Some (PyStr (retained_text text)) /\
          final r !! str "question" = Some (PyStr question) /\
          final r !! str "extracted_json" = Some data /\
          (forall k, k <> str "raw_text" -> k <> str "question" ->
                     k <> str "extracted_json" -> final r !! k = st !! k) /\
          Forall (fun ev => is_error ev = false) (trace r)
      end
  end.
Proof.
  intros r. subst r. rewrite extract_action_run. cbv zeta.
  assert (Forall (fun ev => is_error ev = false) (trace (read_document ext name raw st)))
    as Hdoc.
  { apply Forall_forall. intros ev Hev.
    by destruct (read_document_trace _ _ _ _ _ Hev) as [-> | ->]. }
  destruct (outcome (read_document ext name raw st)) as [text|e]; simpl.
  { rewrite ask_groq_json_run; simpl.
    destruct (groq_create _ _ _ _) as [content|e]; simpl.
    - destruct (outcome (parse_content content st)) as [data|e]; simpl.
      + split; [done|].
        split; [by rewrite lookup_insert_ne, lookup_insert_ne, lookup_insert_eq
                  by (apply not_eq_sym; distinct_keys)|].
        split; [by rewrite lookup_insert_ne, lookup_insert_eq
                  by (apply not_eq_sym; distinct_keys)|].
        split; [by rewrite lookup_insert_eq|].
        split; [intros k H1 H2 H3; by rewrite !lookup_insert_ne by done|].
        constructor; [done|]. apply Forall_app. split; [done|]. by repeat constructor.
      + split; [done|]. split; [done|].
        eexists (_ :: trace (read_document ext name raw st) ++ [_]).
        split; [simpl; rewrite <- app_assoc; reflexivity|].
        constructor; [done|]. apply Forall_app. split; [done|]. by repeat constructor.
    - split; [done|]. split; [done|].
      eexists (_ :: trace (read_document ext name raw st) ++ [_]).
      split; [simpl; rewrite <- app_assoc; reflexivity|].
      constructor; [done|]. apply Forall_app. split; [done|]. by repeat constructor. }
  split; [done|]. split; [done|]. by constructor.
Qed.

(** ** The answer of the webhook *)

Lemma trace_render_no_post data st :
  Forall (fun ev => is_post ev = false) (trace (render data st)).
Proof. destruct data; repeat constructor. Qed.

Lemma synthesized_lookups (r : response) :
  rendered (<[ str "status" := PyStr (str "HTTP " ++ str_of_int (status_code r)) ]>
            (<[ str "body" := PyStr (text r) ]> ∅))
  = [ StSubheader (str "Final Analytical Answer (from n8n)");
      StWrite (PyStr (str "_No answer returned_"));
      StSubheader (str "Generated Email Body");
      StWrite (PyStr (str "_No email body returned_"));
      StSubheader (str "Email Automation Status");
      StSuccess (PyStr (str "HTTP " ++ str_of_int (status_code r))) ].
Proof.
  unfold rendered.
  rewrite !(lookup_insert_ne _ _ (str "final_answer")) by distinct_keys.
  rewrite !(lookup_insert_ne _ _ (str "email_body")) by distinct_keys.
  by rewrite lookup_insert_eq, !lookup_empty.
Qed.

(** C8: for every response of the webhook, a body that does not parse as
    JSON becomes the mapping of [status] to the text HTTP and the code and of
    [body] to the raw text, and is shown with the two placeholders and that
    status, no error message; and whenever the data is a mapping, the three
    keys are shown, each replaced by its placeholder when missing, and the
    action ends normally. *)
Theorem webhook_answer_never_fails_to_parse
    (ext : externals) (cfg : config) (recip : list N)
    (st : gmap (list N) pyval) (q t j : pyval) (r : response) :
  N8N_WEBHOOK_URL cfg <> [] ->
  st !! str "question" = Some q ->
  st !! str "raw_text" = Some t ->
  st !! str "extracted_json" = Some j ->
  requests_post ext (N8N_WEBHOOK_URL cfg) (payload q t j recip) 60 = Ok r ->
  (forall e, json_loads (text r) = Raise e ->
     response_data r
       = PyDict (<[ str "status" := PyStr (str "HTTP " ++ str_of_int (status_code r)) ]>
                 (<[ str "body" := PyStr (text r) ]> ∅)) /\
     send_alert_action ext cfg recip st
       = Run [ StSpinner (str "Calling n8n webhook...");
               RequestsPost (N8N_WEBHOOK_URL cfg) (payload q t j recip) 60;
               StSubheader (str "Final Analytical Answer (from n8n)");
               StWrite (PyStr (str "_No answer returned_"));
               StSubheader (str "Generated Email Body");
               StWrite (PyStr (str "_No email body returned_"));
               StSubheader (str "Email Automation Status");
               StSuccess (PyStr (str "HTTP " ++ str_of_int (status_code r))) ]
             st (Ok tt)) /\
  (forall d, response_data r = PyDict d ->
     send_alert_action ext cfg recip st
       = Run [ StSpinner (str "Calling n8n webhook...");
               RequestsPost (N8N_WEBHOOK_URL cfg) (payload q t j recip) 60;
               StSubheader (str "Final Analytical Answer (from n8n)");
               StWrite (default (PyStr (str "_No answer returned_"))
                          (d !! str "final_answer"));
               StSubheader (str "Generated Email Body");
               StWrite (default (PyStr (str "_No email body returned_"))
                          (d !! str "email_body"));
               StSubheader (str "Email Automation Status");
               StSuccess (default (PyStr (str "Unknown")) (d !! str "status")) ]
             st (Ok tt)).
Proof.
  intros Hurl Hq Ht Hj Hpost.
  pose proof (send_alert_action_run ext cfg recip st q t j Hurl Hq Ht Hj) as Hrun.
  cbv zeta in Hrun. rewrite Hpost in Hrun.
  assert (forall d, response_data r = PyDict d ->
            send_alert_action ext cfg recip st
            = Run (StSpinner (str "Calling n8n webhook...")
                   :: RequestsPost (N8N_WEBHOOK_URL cfg) (payload q t j recip) 60
                   :: rendered d) st (Ok tt)) as Hdict.
  { intros d Hd. rewrite Hrun, Hd, render_dict. reflexivity. }
  split.
  - intros e He.
    assert (response_data r = synthesized r) as Hs
      by (unfold response_data; by rewrite He).
    split; [exact Hs|].
    rewrite (Hdict _ Hs). by rewrite synthesized_lookups.
  - intros d Hd. by rewrite (Hdict d Hd).
Qed.

Lemma webhook_answer_never_fails_to_parse_witness :
  send_alert_action bad_gateway_world demo_config (str "ops@example.com") demo_session
  = Run [ StSpinner (str "Calling n8n webhook...");
          RequestsPost (N8N_WEBHOOK_URL demo_config)
            (payload (PyStr (str "List the skills mentioned."))
               (PyStr (str "Alice has Python and Go skills."))
               (PyDict {[ str "risk_level" := PyStr (str "Low") ]})
               (str "ops@example.com")) 60;
          StSubheader (str "Final Analytical Answer (from n8n)");
          StWrite (PyStr (str "_No answer returned_"));
          StSubheader (str "Generated Email Body");
          StWrite (PyStr (str "_No email body returned_"));
          StSubheader (str "Email Automation Status");
          StSuccess (PyStr (str "HTTP 502")) ]
        demo_session (Ok tt).
Proof.
  refine (proj2 (proj1 (webhook_answer_never_fails_to_parse
            bad_gateway_world demo_config (str "ops@example.com") demo_session
            (PyStr (str "List the skills mentioned."))
            (PyStr (str "Alice has Python and Go skills."))
            (PyDict {[ str "risk_level" := PyStr (str "Low") ]})
            (Response 502 (str "<html>Bad Gateway</html>"))
            _ _ _ _ _)
          (JSONDecodeError (str "<html>Bad Gateway</html>")) _)).
  - discriminate.
  - vm_compute; reflexivity.
  - vm_compute; reflexivity.
  - vm_compute; reflexivity.
  - reflexivity.
  - vm_compute; reflexivity.
Defined.

(** C10, as stated, fails on an answer whose body is a JSON array: the
    request itself succeeds, the body parses, and the action still ends in
    its error branch, because the parsed value has no [get]. *)
Lemma non_object_answer_reaches_error_branch :
  requests_post array_answer_world (N8N_WEBHOOK_URL demo_config)
    (payload (PyStr (str "List the skills mentioned."))
       (PyStr (str "Alice has Python and Go skills."))
       (PyDict {[ str "risk_level" := PyStr (str "Low") ]})
       (str "ops@example.com")) 60
  = Ok (Response 200 (str "[]")) /\
  json_loads (str "[]") = Ok (PyList []) /\
  send_alert_action array_answer_world demo_config (str "ops@example.com") demo_session
  = Run [ StSpinner (str "Calling n8n webhook...");
          RequestsPost (N8N_WEBHOOK_URL demo_config)
            (payload (PyStr (str "List the skills mentioned."))
               (PyStr (str "Alice has Python and Go skills."))
               (PyDict {[ str "risk_level" := PyStr (str "Low") ]})
               (str "ops@example.com")) 60;
          StSubheader (str "Final Analytical Answer (from n8n)");
          StError (str "Webhook failed: AttributeError") ]
        demo_session (Ok tt).
Proof. repeat split; vm_compute; reflexivity. Qed.

(** C10, as the code has it: the status code of the answer is never
    looked at.  An answer whose body parses as a JSON object is shown from
    that object alone, whatever its status code, and the action ends
    normally; an exception raised by the request itself ends in the error
    branch. *)
Theorem webhook_status_code_not_checked
    (ext : externals) (cfg : config) (recip : list N)
    (st : gmap (list N) pyval) (q t j : pyval) :
  N8N_WEBHOOK_URL cfg <> [] ->
  st !! str "question" = Some q ->
  st !! str "raw_text" = Some t ->
  st !! str "extracted_json" = Some j ->
  (forall r d,
     requests_post ext (N8N_WEBHOOK_URL cfg) (payload q t j recip) 60 = Ok r ->
     json_loads (text r) = Ok (PyDict d) ->
     send_alert_action ext cfg recip st
       = Run [ StSpinner (str "Calling n8n webhook...");
               RequestsPost (N8N_WEBHOOK_URL cfg) (payload q t j recip) 60;
               StSubheader (str "Final Analytical Answer (from n8n)");
               StWrite (default (PyStr (str "_No answer returned_"))
                          (d !! str "final_answer"));
               StSubheader (str "Generated Email Body");
               StWrite (default (PyStr (str "_No email body returned_"))
                          (d !! str "email_body"));
               StSubheader (str "Email Automation Status");
               StSuccess (default (PyStr (str "Unknown")) (d !! str "status")) ]
             st (Ok tt)) /\
  (forall e,
     requests_post ext (N8N_WEBHOOK_URL cfg) (payload q t j recip) 60 = Raise e ->
     send_alert_action ext cfg recip st
       = Run [ StSpinner (str "Calling n8n webhook...");
               RequestsPost (N8N_WEBHOOK_URL cfg) (payload q t j recip) 60;
               StError (str "Webhook failed: " ++ str_exn ext e) ]
             st (Ok tt)).
Proof.
  intros Hurl Hq Ht Hj.
  pose proof (send_alert_action_run ext cfg recip st q t j Hurl Hq Ht Hj) as Hrun.
  cbv zeta in Hrun. split.
  - intros r d Hpost Hd. rewrite Hrun, Hpost.
    unfold response_data. rewrite Hd, render_dict. reflexivity.
  - intros e Hpost. by rewrite Hrun, Hpost.
Qed.

Lemma webhook_status_code_not_checked_witness :
  send_alert_action server_error_world demo_config (str "ops@example.com") demo_session
  = Run [ StSpinner (str "Calling n8n webhook...");
          RequestsPost (N8N_WEBHOOK_URL demo_config)
            (payload (PyStr (str "List the skills mentioned."))
               (PyStr (str "Alice has Python and Go skills."))
               (PyDict {[ str "risk_level" := PyStr (str "Low") ]})
               (str "ops@example.com")) 60;
          StSubheader (str "Final Analytical Answer (from n8n)");
          StWrite (PyStr (str "_No answer returned_"));
          StSubheader (str "Generated Email Body");
          StWrite (PyStr (str "_No email body returned_"));
          StSubheader (str "Email Automation Status");
          StSuccess (PyStr (str "queued")) ]
        demo_session (Ok tt).
Proof.
  refine (proj1 (webhook_status_code_not_checked
            server_error_world demo_config (str "ops@example.com") demo_session
            (PyStr (str "List the skills mentioned."))
            (PyStr (str "Alice has Python and Go skills."))
            (PyDict {[ str "risk_level" := PyStr (str "Low") ]})
            _ _ _ _)
          (Response 500 (dq "{'status':'queued'}"))
          {[ str "status" := PyStr (str "queued") ]} _ _).
  - discriminate.
  - vm_compute; reflexivity.
  - vm_compute; reflexivity.
  - vm_compute; reflexivity.
  - reflexivity.
  - vm_compute; reflexivity.
Defined.

(** ** What the webhook receives *)

Lemma payload_raw_text q t j recip :
  py_get (payload q t j recip) (str "raw_text") PyNone = Ok t.
Proof.
  unfold py_get, payload.
  rewrite lookup_insert_ne by (apply not_eq_sym; distinct_keys).
  by rewrite lookup_insert_eq.
Qed.

Lemma filter_post_render data st :
  List.filter is_post (trace (render data st)) = [].
Proof. destruct data; reflexivity. Qed.

(** C9: after a successful extraction, the one request posted by the alert
    action carries as [raw_text] the text kept in the session, which is the
    first 50,000 characters of the extracted text at most, and differs from
    the extracted text whenever that is longer. *)
Theorem webhook_receives_retained_text
    (ext : externals) (cfg : config) (name raw question recip text : list N)
    (data : pyval) (st : gmap (list N) pyval) :
  outcome (read_document ext name raw st) = Ok text ->
  outcome (ask_groq_json ext cfg system_prompt (user_prompt question text) st) = Ok data ->
  N8N_WEBHOOK_URL cfg <> [] ->
  let st' := final (extract_action ext cfg name raw question st) in
  let body := payload (PyStr question) (PyStr (retained_text text)) data recip in
  List.filter is_post (trace (send_alert_action ext cfg recip st'))
    = [RequestsPost (N8N_WEBHOOK_URL cfg) body 60] /\
  py_get body (str "raw_text") PyNone = Ok (PyStr (retained_text text)) /\
  retained_text text = take (Z.to_nat 50000) text /\
  (Z.of_nat (length (retained_text text)) <= 50000)%Z /\
  ((50000 < Z.of_nat (length text))%Z -> retained_text text <> text).
Proof.
  intros Hdoc Hask Hurl st' body.
  assert (st' = <[str "extracted_json" := data]>
                  (<[str "question" := PyStr question]>
                    (<[str "raw_text" := PyStr (retained_text text)]> st))) as Hst.
  { subst st'. rewrite extract_action_run. cbv zeta. by rewrite Hdoc, Hask. }
  split.
  - rewrite (send_alert_action_run ext cfg recip st'
               (PyStr question) (PyStr (retained_text text)) data Hurl).
    + cbv zeta. fold body.
      destruct (requests_post ext (N8N_WEBHOOK_URL cfg) body 60) as [r|e]; [|reflexivity].
      pose proof (filter_post_render (response_data r) st') as Hf.
      destruct (outcome (render (response_data r) st')); simpl.
      * by rewrite Hf.
      * by rewrite List.filter_app, Hf.
    + rewrite Hst. by rewrite lookup_insert_ne, lookup_insert_eq
        by (apply not_eq_sym; distinct_keys).
    + rewrite Hst. by rewrite lookup_insert_ne, lookup_insert_ne, lookup_insert_eq
        by (apply not_eq_sym; distinct_keys).
    + rewrite Hst. by rewrite lookup_insert_eq.
  - split; [apply payload_raw_text|].
    split; [apply slice_to_nonneg; lia|].
    split; [apply slice_to_length; lia|].
    intros Hlong. apply slice_to_long. lia.
Qed.

(** Bytes below 128 decode to themselves, whatever the error handler. *)
Lemma decode_utf8_ascii errors (b : list N) :
  Forall (fun x => x < 128) b -> decode_utf8 errors b = Ok b.
Proof.
  induction 1 as [|x b Hx _ IH]; [done|].
  cbn [decode_utf8]. destruct (N.ltb_spec x 128); [|lia]. by rewrite IH.
Qed.

Lemma long_file_length : length long_file = N.to_nat 50001.
Proof. apply length_replicate. Qed.

Lemma webhook_receives_retained_text_witness :
  retained_text long_file <> long_file /\
  (Z.of_nat (length (retained_text long_file)) <= 50000)%Z.
Proof.
  destruct (webhook_receives_retained_text server_error_world demo_config
              (str "notes.txt") long_file (str "List the skills mentioned.")
              (str "ops@example.com") long_file
              (PyDict {[ str "risk_level" := PyStr (str "Low") ]}) ∅)
    as (_ & _ & _ & Hlen & Hne).
  - change (outcome (lift (extract_text_from_txt long_file) ∅) = Ok long_file).
    unfold extract_text_from_txt. rewrite decode_utf8_ascii; [reflexivity|].
    apply Forall_replicate. reflexivity.
  - rewrite ask_groq_json_run.
    change (outcome (parse_content (Some (dq "{'risk_level':'Low'}")) ∅)
            = Ok (PyDict {[ str "risk_level" := PyStr (str "Low") ]})).
    rewrite parse_content_run, json_loads_risk_level. reflexivity.
  - discriminate.
  - split; [apply Hne; rewrite long_file_length; lia | exact Hlen].
Defined.

(** ** Decoding a text file *)

Lemma utf8_encode_cons c s : utf8_encode (c :: s) = utf8_encode_char c ++ utf8_encode s.
Proof. reflexivity. Qed.

Lemma is_continuation_range b : is_continuation b = true -> 128 <= b < 192.
Proof.
  unfold is_continuation. intros [H1 H2]%andb_prop.
  apply N.leb_le in H1. apply N.ltb_lt in H2. lia.
Qed.

Lemma div_mod_of a b q r : r < b -> a = b * q + r -> a / b = q /\ a mod b = r.
Proof.
  intros Hr Ha. split; symmetry.
  - by apply (N.div_unique a b q r).
  - by apply (N.mod_unique a b q r).
Qed.

Lemma utf8_encode_char_2 ch ch2 :
  194 <= ch -> ch < 224 -> is_continuation ch2 = true ->
  utf8_encode_char (ch * 64 + ch2 - 12416) = [ch; ch2].
Proof.
  intros H1 H2 H3%is_continuation_range.
  set (c := ch * 64 + ch2 - 12416). unfold utf8_encode_char.
  destruct (N.ltb_spec c 128); [lia|].
  destruct (N.ltb_spec c 2048); [|lia].
  destruct (div_mod_of c 64 (ch - 192) (ch2 - 128)) as [-> ->]; [lia..|].
  f_equal; [lia|]. f_equal; lia.
Qed.

Lemma utf8_encode_char_3 ch ch2 ch3 :
  224 <= ch -> ch < 240 ->
  is_continuation ch2 = true -> (ch = 224 -> 160 <= ch2) ->
  is_continuation ch3 = true ->
  utf8_encode_char (ch * 4096 + ch2 * 64 + ch3 - 925824) = [ch; ch2; ch3].
Proof.
  intros H1 H2 H3%is_continuation_range H4 H5%is_continuation_range.
  set (c := ch * 4096 + ch2 * 64 + ch3 - 925824). unfold utf8_encode_char.
  destruct (N.ltb_spec c 128); [lia|].
  destruct (N.ltb_spec c 2048); [lia|].
  destruct (N.ltb_spec c 65536); [|lia].
  destruct (div_mod_of c 4096 (ch - 224) ((ch2 - 128) * 64 + (ch3 - 128))) as [-> _];
    [lia..|].
  destruct (div_mod_of c 64 ((ch - 224) * 64 + (ch2 - 128)) (ch3 - 128)) as [-> ->];
    [lia..|].
  destruct (div_mod_of ((ch - 224) * 64 + (ch2 - 128)) 64 (ch - 224) (ch2 - 128))
    as [_ ->]; [lia..|].
  f_equal; [lia|]. f_equal; [lia|]. f_equal; lia.
Qed.

Lemma utf8_encode_char_4 ch ch2 ch3 ch4 :
  240 <= ch -> ch < 245 ->
  is_continuation ch2 = true -> (ch = 240 -> 144 <= ch2) ->
  is_continuation ch3 = true -> is_continuation ch4 = true ->
  utf8_encode_char (ch * 262144 + ch2 * 4096 + ch3 * 64 + ch4 - 63447168)
  = [ch; ch2; ch3; ch4].
Proof.
  intros H1 H2 H3%is_continuation_range H4 H5%is_continuation_range
    H6%is_continuation_range.
  set (c := ch * 262144 + ch2 * 4096 + ch3 * 64 + ch4 - 63447168).
  unfold utf8_encode_char.
  destruct (N.ltb_spec c 128); [lia|].
  destruct (N.ltb_spec c 2048); [lia|].
  destruct (N.ltb_spec c 65536); [lia|].
  destruct (div_mod_of c 262144 (ch - 240)
              ((ch2 - 128) * 4096 + (ch3 - 128) * 64 + (ch4 - 128))) as [-> _];
    [lia..|].
  destruct (div_mod_of c 4096 ((ch - 240) * 64 + (ch2 - 128))
              ((ch3 - 128) * 64 + (ch4 - 128))) as [-> _]; [lia..|].
  destruct (div_mod_of c 64 (((ch - 240) * 64 + (ch2 - 128)) * 64 + (ch3 - 128))
              (ch4 - 128)) as [-> ->]; [lia..|].
  destruct (div_mod_of ((ch - 240) * 64 + (ch2 - 128)) 64 (ch - 240) (ch2 - 128))
    as [_ ->]; [lia..|].
  destruct (div_mod_of (((ch - 240) * 64 + (ch2 - 128)) * 64 + (ch3 - 128)) 64
              ((ch - 240) * 64 + (ch2 - 128)) (ch3 - 128)) as [_ ->]; [lia..|].
  f_equal; [lia|]. f_equal; [lia|]. f_equal; [lia|]. f_equal; lia.
Qed.

Lemma decode_utf8_ignore_keeps n (b : list N) :
  (length b <= n)%nat ->
  exists s, decode_utf8 ignore b = Ok s /\
            utf8_encode s `sublist_of` b /\
            decode_utf8 strict (utf8_encode s) = Ok s.
Proof.
  revert b. induction n as [|n IH]; intros b Hn.
  { destruct b; [|simpl in Hn; lia]. end_of_buffer. }
  destruct b as [|ch r]; [end_of_buffer|].
  cbn [decode_utf8 on_error].
  destruct (ch <? 128) eqn:E1.
  { destruct (IH r) as (s & Hs & Hsub & Hstr); [simpl in *; lia|].
    exists (ch :: s). rewrite Hs. split; [done|].
    rewrite utf8_encode_cons.
    assert (utf8_encode_char ch = [ch]) as -> by (unfold utf8_encode_char; by rewrite E1).
    split; [by apply sublist_skip|]. cbn [app decode_utf8]. by rewrite E1, Hstr. }
  destruct (ch <? 194) eqn:E2; [skip_bytes IH r|].
  apply N.ltb_ge in E1 as G1. apply N.ltb_ge in E2 as G2.
  destruct (ch <? 224) eqn:E3.
  { apply N.ltb_lt in E3 as G3.
    destruct r as [|ch2 r2]; [end_of_buffer|].
    destruct (is_continuation ch2) eqn:C2; [|skip_bytes IH (ch2 :: r2)].
    destruct (IH r2) as (s & Hs & Hsub & Hstr); [simpl in *; lia|].
    exists (ch * 64 + ch2 - 12416 :: s). rewrite Hs. split; [done|].
    rewrite utf8_encode_cons, utf8_encode_char_2 by done.
    split; [by repeat apply sublist_skip|].
    cbn [app decode_utf8]. by rewrite E1, E2, E3, C2, Hstr. }
  apply N.ltb_ge in E3 as G3.
  destruct (ch <? 240) eqn:E4.
  { apply N.ltb_lt in E4 as G4.
    destruct r as [|ch2 r2]; [end_of_buffer|].
    destruct (negb (is_continuation ch2) || (if ch2 <? 160 then ch =? 224 else ch =? 237))
      eqn:C2; [skip_bytes IH (ch2 :: r2)|].
    apply orb_false_elim in C2 as [C2a C2b]. apply negb_false_iff in C2a.
    destruct r2 as [|ch3 r3]; [end_of_buffer|].
    destruct (is_continuation ch3) eqn:C3; [|skip_bytes IH (ch3 :: r3)].
    destruct (IH r3) as (s & Hs & Hsub & Hstr); [simpl in *; lia|].
    exists (ch * 4096 + ch2 * 64 + ch3 - 925824 :: s). rewrite Hs. split; [done|].
    rewrite utf8_encode_cons, utf8_encode_char_3; try done.
    - split; [by repeat apply sublist_skip|].
      cbn [app decode_utf8]. rewrite E1, E2, E3, E4, C2a, C2b, C3, Hstr. done.
    - intros ->. destruct (N.ltb_spec ch2 160); [done | lia]. }
  apply N.ltb_ge in E4 as G4.
  destruct (ch <? 245) eqn:E5; [|skip_bytes IH r].
  apply N.ltb_lt in E5 as G5.
  destruct r as [|ch2 r2]; [end_of_buffer|].
  destruct (negb (is_continuation ch2) || (if ch2 <? 144 then ch =? 240 else ch =? 244))
    eqn:C2; [skip_bytes IH (ch2 :: r2)|].
  apply orb_false_elim in C2 as [C2a C2b]. apply negb_false_iff in C2a.
  destruct r2 as [|ch3 r3]; [end_of_buffer|].
  destruct (is_continuation ch3) eqn:C3; [|skip_bytes IH (ch3 :: r3)].
  destruct r3 as [|ch4 r4]; [end_of_buffer|].
  destruct (is_continuation ch4) eqn:C4; [|skip_bytes IH (ch4 :: r4)].
  destruct (IH r4) as (s & Hs & Hsub & Hstr); [simpl in *; lia|].
  exists (ch * 262144 + ch2 * 4096 + ch3 * 64 + ch4 - 63447168 :: s).
  rewrite Hs. split; [done|].
  rewrite utf8_encode_cons, utf8_encode_char_4; try done.
  - split; [by repeat apply sublist_skip|].
    cbn [app decode_utf8]. rewrite E1, E2, E3, E4, E5, C2a, C2b, C3, C4, Hstr. done.
  - intros ->. destruct (N.ltb_spec ch2 144); [done | lia].
Qed.



(** Under [errors="replace"] the same buffer gets a replacement character
    for each error; under [errors="ignore"] it gets none. *)
Example decode_utf8_ignore_vs_replace :
  decode_utf8 ignore [104; 195; 169; 255; 224; 128; 240; 144; 128] = Ok [104; 233] /\
  decode_utf8 replace [104; 195; 169; 255; 224; 128; 240; 144; 128]
    = Ok [104; 233; 65533; 65533; 65533; 65533] /\
  decode_utf8 strict [104; 195; 169; 255; 224; 128; 240; 144; 128]
    = Raise UnicodeDecodeError.
Proof. repeat split; reflexivity. Qed.

(** ** The scanner never runs out of fuel *)

Ltac break_match H :=
  match type of H with
  | context [match ?x with _ => _ end] => destruct x eqn:?
  end.

Lemma skip_ws_length s : (length (skip_ws s) <= length s)%nat.
Proof.
  induction s as [|c r IH]; simpl; [done|].
  destruct (is_json_ws c); simpl; lia.
Qed.

Lemma scanstring_length n s acc k r :
  (length s <= n)%nat -> scanstring s acc = Some (k, r) -> (length r < length s)%nat.
Proof.
  revert s acc. induction n as [|n IH]; intros s acc Hn H.
  { destruct s; [discriminate | simpl in Hn; lia]. }
  destruct s as [|c s1]; [discriminate|]. cbn [scanstring] in H.
  repeat break_match H; try discriminate;
    first [ injection H as <- <-; simpl in *; lia
          | apply IH in H; simpl in *; lia ].
Qed.

Lemma span_digits_length s d r :
  span_digits s = (d, r) -> (length r <= length s)%nat.
Proof.
  revert d r. induction s as [|c s IH]; intros d r H; simpl in H.
  { injection H as <- <-. done. }
  destruct (is_digit c).
  - destruct (span_digits s) as [d' r'] eqn:E. injection H as <- <-.
    specialize (IH _ _ eq_refl). simpl. lia.
  - injection H as <- <-. done.
Qed.

Lemma match_integer_length s neg d r :
  match_integer s = Some (neg, d, r) -> (length r < length s)%nat.
Proof.
  assert (forall neg0 s0,
            match s0 with
            | c :: r' =>
                if c =? 48 then Some (neg0, [c], r')
                else if is_digit c then
                       let '(d, r'') := span_digits r' in Some (neg0, c :: d, r'')
                     else None
            | [] => None
            end = Some (neg, d, r) -> (length r < length s0)%nat) as Hdigits.
  { intros neg0 [|c r'] H; [discriminate|].
    destruct (c =? 48); [injection H as <- <- <-; simpl; lia|].
    destruct (is_digit c); [|discriminate].
    destruct (span_digits r') as [d' r''] eqn:E. injection H as <- <- <-.
    apply span_digits_length in E. simpl. lia. }
  unfold match_integer. destruct s as [|c s1]; [discriminate|].
  destruct (c =? 45); intros H.
  - apply (Hdigits true s1) in H. simpl. lia.
  - apply (Hdigits false (c :: s1)) in H. done.
Qed.

Lemma match_frac_length s f r : match_frac s = (f, r) -> (length r <= length s)%nat.
Proof.
  unfold match_frac. intros H.
  repeat break_match H;
    repeat match goal with
           | E : span_digits _ = _ |- _ => apply span_digits_length in E
           end;
    injection H as <- <-; simpl in *; lia.
Qed.

Lemma match_exp_length s x r : match_exp s = (x, r) -> (length r <= length s)%nat.
Proof.
  unfold match_exp. destruct s as [|e s1]; [by intros [= <- <-]|].
  destruct ((e =? 101) || (e =? 69)); [|by intros [= <- <-]].
  assert (forall sg r1, (length r1 <= length s1)%nat ->
            match span_digits r1 with
            | ([], _) => ([], e :: s1)
            | (d, r2) => (e :: sg ++ d, r2)
            end = (x, r) -> (length r <= length (e :: s1))%nat) as Hdigits.
  { intros sg r1 Hr1 H. destruct (span_digits r1) as [d r2] eqn:E.
    apply span_digits_length in E.
    destruct d; injection H as <- <-; simpl in *; lia. }
  destruct s1 as [|c r1]; [by apply Hdigits|].
  destruct ((c =? 43) || (c =? 45)); apply Hdigits; simpl; lia.
Qed.

Lemma match_number_length s v r :
  match_number s = Scanned v r -> (length r < length s)%nat.
Proof.
  unfold match_number. intros H.
  destruct (match_integer s) as [[[neg d] r0]|] eqn:Ei; [|discriminate].
  destruct (match_frac r0) as [f r1] eqn:Ef.
  destruct (match_exp r1) as [x r2] eqn:Ex.
  apply match_integer_length in Ei. apply match_frac_length in Ef.
  apply match_exp_length in Ex.
  repeat break_match H; try discriminate; injection H as <- <-; lia.
Qed.

Lemma startswith_length s p : startswith s p = true -> (length p <= length s)%nat.
Proof.
  revert s. induction p as [|a p IH]; intros s H; simpl in *; [lia|].
  destruct s as [|b s]; [discriminate|].
  apply andb_prop in H as [_ H]. apply IH in H. simpl. lia.
Qed.

Lemma scan_atom_length s v r :
  scan_atom s = Scanned v r -> (length r < length s)%nat.
Proof.
  unfold scan_atom. intros H.
  repeat match type of H with
         | context [if startswith s ?p then _ else _] =>
             let E := fresh "E" in
             destruct (startswith s p) eqn:E;
             [apply startswith_length in E; injection H as <- <-;
              rewrite length_drop; simpl in E; lia|]
         end.
  by apply match_number_length in H.
Qed.

Ltac length_facts :=
  repeat match goal with
         | E : skip_ws ?s = _ |- _ =>
             let L := fresh "L" in
             pose proof (skip_ws_length s) as L; rewrite E in L; clear E
         | E : scanstring ?s _ = Some _ |- _ =>
             apply (scanstring_length (length s)) in E; [|done]
         | E : scan_atom _ = Scanned _ _ |- _ => apply scan_atom_length in E
         end.

Ltac skip_ws_facts :=
  repeat match goal with
         | H : context [length (skip_ws ?s)] |- _ =>
             lazymatch goal with
             | _ : (length (skip_ws s) <= length s)%nat |- _ => fail
             | _ => pose proof (skip_ws_length s)
             end
         end.

(** Every scanner consumes at least one character. *)
Lemma scan_consumes fuel :
  (forall s v r, scan_once fuel s = Scanned v r -> (length r < length s)%nat) /\
  (forall s v r, JSONObject fuel s = Scanned v r -> (length r < length s)%nat) /\
  (forall d s v r, object_pairs fuel d s = Scanned v r -> (length r < length s)%nat) /\
  (forall s v r, JSONArray fuel s = Scanned v r -> (length r < length s)%nat) /\
  (forall acc s v r, array_items fuel acc s = Scanned v r -> (length r < length s)%nat).
Proof.
  induction fuel as [|f (IHv & IHo & IHp & IHa & IHi)]; [by repeat split|].
  repeat split.
  - intros s v r H. cbn [scan_once] in H.
    repeat break_match H; try discriminate; length_facts;
      first [ injection H as <- <- | apply IHo in H | apply IHa in H | idtac ];
      simpl in *; lia.
  - intros s v r H. cbn [JSONObject] in H.
    repeat break_match H; try discriminate; length_facts;
      first [ injection H as <- <- | apply IHp in H ]; simpl in *; lia.
  - intros d s v r H. cbn [object_pairs] in H.
    repeat break_match H; try discriminate; length_facts;
      repeat match goal with
             | E : scan_once f _ = Scanned _ _ |- _ => apply IHv in E
             end;
      length_facts;
      first [ injection H as <- <- | apply IHp in H ];
      skip_ws_facts; simpl in *; lia.
  - intros s v r H. cbn [JSONArray] in H.
    repeat break_match H; try discriminate; length_facts;
      first [ injection H as <- <- | apply IHi in H ]; simpl in *; lia.
  - intros acc s v r H. cbn [array_items] in H.
    repeat break_match H; try discriminate; length_facts;
      repeat match goal with
             | E : scan_once f _ = Scanned _ _ |- _ => apply IHv in E
             end;
      first [ injection H as <- <- | apply IHi in H ];
      skip_ws_facts; simpl in *; lia.
Qed.

Lemma match_number_fuel s : match_number s <> NoFuel.
Proof.
  unfold match_number. intros H.
  repeat break_match H; discriminate.
Qed.

Lemma scan_atom_fuel s : scan_atom s <> NoFuel.
Proof.
  unfold scan_atom. intros H.
  repeat match type of H with
         | context [if startswith s ?p then _ else _] =>
             destruct (startswith s p); [discriminate|]
         end.
  by apply match_number_fuel in H.
Qed.

Ltac consumed f :=
  repeat match goal with
         | E : scan_once f _ = Scanned _ _ |- _ =>
             apply (proj1 (scan_consumes f)) in E
         end.

(** Three units of fuel for each character and one more are enough. *)
Lemma scan_fuel fuel :
  (forall s, (3 * length s + 1 <= fuel)%nat -> scan_once fuel s <> NoFuel) /\
  (forall s, (3 * length s + 3 <= fuel)%nat -> JSONObject fuel s <> NoFuel) /\
  (forall d s, (3 * length s + 2 <= fuel)%nat -> object_pairs fuel d s <> NoFuel) /\
  (forall s, (3 * length s + 3 <= fuel)%nat -> JSONArray fuel s <> NoFuel) /\
  (forall acc s, (3 * length s + 2 <= fuel)%nat -> array_items fuel acc s <> NoFuel).
Proof.
  induction fuel as [|f (IHv & IHo & IHp & IHa & IHi)];
    [repeat split; intros; lia|].
  repeat split.
  - intros s Hf H. cbn [scan_once] in H.
    repeat break_match H; try discriminate.
    + apply IHo in H; [done | simpl in *; lia].
    + apply IHa in H; [done | simpl in *; lia].
    + by apply scan_atom_fuel in H.
  - intros s Hf H. cbn [JSONObject] in H.
    repeat break_match H; try discriminate; length_facts.
    apply IHp in H; [done | simpl in *; lia].
  - intros d s Hf H. cbn [object_pairs] in H.
    repeat break_match H; try discriminate; length_facts; consumed f; length_facts.
    + apply IHp in H; [done | skip_ws_facts; simpl in *; lia].
    + match goal with
      | E : scan_once f ?x = NoFuel |- _ =>
          apply IHv in E; [done | pose proof (skip_ws_length x)]
      end.
      skip_ws_facts; simpl in *; lia.
  - intros s Hf H. cbn [JSONArray] in H.
    repeat break_match H; try discriminate; length_facts.
    apply IHi in H; [done | simpl in *; lia].
  - intros acc s Hf H. cbn [array_items] in H.
    repeat break_match H; try discriminate; length_facts; consumed f.
    + apply IHi in H; [done|].
      match goal with
      | |- context [skip_ws ?x] => pose proof (skip_ws_length x)
      end.
      simpl in *; lia.
    + match goal with
      | E : scan_once f _ = NoFuel |- _ => apply IHv in E; [done | lia]
      end.
Qed.

(** [json.loads] is decided by the document alone: the recursion of the
    model always reaches an answer. *)
Lemma json_loads_never_out_of_fuel s : json_loads s <> Raise RecursionError.
Proof.
  unfold json_loads. intros H.
  destruct (scan_once _ _) as [v r|[]|] eqn:E; try discriminate.
  - by destruct (skip_ws r).
  - apply (proj1 (scan_fuel _)) in E; [done|].
    pose proof (skip_ws_length s). lia.
Qed.

(** ** The search for the braced block *)

Lemma from_first_nil c s : from_first c s = [] -> c ∉ s.
Proof.
  induction s as [|x s IH]; simpl; [intros _; apply not_elem_of_nil|].
  destruct (N.eqb_spec x c); [done|].
  intros H%IH. rewrite elem_of_cons. intros [->|]; done.
Qed.

Lemma from_first_cons c s x r :
  from_first c s = x :: r -> x = c /\ exists pre, s = pre ++ c :: r /\ c ∉ pre.
Proof.
  induction s as [|y s IH]; simpl; [done|].
  destruct (N.eqb_spec y c) as [->|Hne].
  - intros [= <- <-]. split; [done|]. exists []. split; [done | apply not_elem_of_nil].
  - intros [-> (pre & -> & Hpre)]%IH. split; [done|].
    exists (y :: pre). split; [done|]. rewrite elem_of_cons. intros [->|]; done.
Qed.

Lemma from_first_app c pre rest :
  exists r, from_first c (pre ++ c :: rest) = c :: r /\ rest `suffix_of` r.
Proof.
  induction pre as [|y pre (r & IH & Hsuf)]; simpl.
  - rewrite N.eqb_refl. by exists rest.
  - destruct (N.eqb_spec y c) as [->|Hne].
    + exists (pre ++ c :: rest). split; [done|]. by exists (pre ++ [c]); rewrite <- app_assoc.
    + by exists r.
Qed.

Lemma through_last_rbrace_some s body :
  through_last_rbrace s = Some body ->
  exists mid post, s = mid ++ 125 :: post /\ (125 ∉ post) /\ body = mid ++ [125].
Proof.
  unfold through_last_rbrace.
  destruct (from_first 125 (reverse s)) as [|x k] eqn:E; [done|].
  intros [= <-]. apply from_first_cons in E as [-> (pre & Hs & Hpre)].
  exists (reverse k), (reverse pre). split; [|split].
  - apply (inj reverse). rewrite Hs, reverse_app, reverse_cons, !reverse_involutive.
    by rewrite <- app_assoc.
  - by rewrite elem_of_reverse.
  - by rewrite reverse_cons.
Qed.

Lemma through_last_rbrace_none s : through_last_rbrace s = None -> 125 ∉ s.
Proof.
  unfold through_last_rbrace.
  destruct (from_first 125 (reverse s)) as [|x k] eqn:E; [|done].
  intros _. apply from_first_nil in E. by rewrite elem_of_reverse in E.
Qed.

(** A match runs from the first opening brace to the last closing brace. *)
Lemma search_braces_some content m :
  search_braces content = Some m ->
  exists pre mid post,
    content = pre ++ 123 :: mid ++ 125 :: post /\
    (123 ∉ pre) /\ (125 ∉ post) /\ m = 123 :: mid ++ [125].
Proof.
  unfold search_braces.
  destruct (from_first 123 content) as [|lb r] eqn:E; [done|].
  apply from_first_cons in E as [-> (pre & -> & Hpre)].
  destruct (through_last_rbrace r) as [body|] eqn:Er; [|done].
  intros [= <-]. apply through_last_rbrace_some in Er as (mid & post & -> & Hpost & ->).
  by exists pre, mid, post.
Qed.

(** No match means that no opening brace has a closing brace after it. *)
Lemma search_braces_none content :
  search_braces content = None ->
  forall pre mid post, content <> pre ++ 123 :: mid ++ 125 :: post.
Proof.
  unfold search_braces. intros H pre mid post ->.
  destruct (from_first_app 123 pre (mid ++ 125 :: post)) as (r & Hr & [k ->]).
  rewrite Hr in H.
  destruct (through_last_rbrace _) eqn:Er; [done|].
  apply through_last_rbrace_none in Er. apply Er.
  rewrite !elem_of_app, elem_of_cons. auto.
Qed.

(** ** The prompt *)

Lemma lstrip_nonspace c s : isspace c = false -> lstrip (c :: s) = c :: s.
Proof. intros H. simpl. by rewrite H. Qed.

Lemma lstrip_app_spaces u v :
  Forall (fun x => isspace x = true) u -> lstrip (u ++ v) = lstrip v.
Proof. induction 1 as [|x u Hx _ IH]; simpl; [done|]. by rewrite Hx. Qed.

Lemma rstrip_app_spaces s t :
  Forall (fun x => isspace x = true) t -> rstrip (s ++ t) = rstrip s.
Proof.
  intros Ht. unfold rstrip. rewrite reverse_app, lstrip_app_spaces; [done|].
  by apply Forall_reverse.
Qed.

Lemma rstrip_nonspace s c : isspace c = false -> rstrip (s ++ [c]) = s ++ [c].
Proof.
  intros Hc. unfold rstrip. rewrite reverse_app. simpl.
  change (reverse [c]) with [c]. simpl. rewrite Hc.
  change (c :: reverse s) with ([c] ++ reverse s).
  rewrite reverse_app, reverse_involutive. done.
Qed.

(** When the text placed in the prompt does not end with a space, the prompt
    is its fixed parts (less the leading line break), the question, and that
    text, and nothing after it. *)
Lemma user_prompt_embeds_text (question text body : list N) (c : N) :
  prompt_text text = body ++ [c] -> isspace c = false ->
  user_prompt question text
  = drop 1 prompt_head ++ question ++ prompt_mid ++ prompt_text text.
Proof.
  intros Hbody Hc. unfold user_prompt, strip.
  assert (prompt_head = 10 :: 82 :: drop 2 prompt_head) as Hhead
    by (vm_compute; reflexivity).
  assert (drop 1 prompt_head = 82 :: drop 2 prompt_head) as Hdrop
    by (vm_compute; reflexivity).
  rewrite Hdrop. rewrite Hhead at 1.
  change ((10 :: 82 :: drop 2 prompt_head) ++ ?x) with (10 :: 82 :: drop 2 prompt_head ++ x).
  cbn [lstrip]. change (isspace 10) with true. change (isspace 82) with false. cbv iota.
  rewrite Hbody. set (pre := 82 :: drop 2 prompt_head).
  change (82 :: drop 2 prompt_head ++ ?x) with (pre ++ x).
  replace (pre ++ question ++ prompt_mid ++ (body ++ [c]) ++ prompt_tail)
    with (((pre ++ question ++ prompt_mid ++ body) ++ [c]) ++ prompt_tail)
    by (by rewrite <- !app_assoc).
  rewrite rstrip_app_spaces by (by repeat constructor).
  rewrite rstrip_nonspace by done. by rewrite <- !app_assoc.
Qed.

(** ** Examples *)

(** The scanner on small documents. *)
Example json_loads_examples :
  json_loads (dq " [1, -2.5e3, true, null, 'a\n'] ")
    = Ok (PyList [PyInt 1; PyFloat (str "-2.5e3"); PyBool true; PyNone;
                  PyStr [97; 10]]) /\
  json_loads (dq "{'a' : 1 , 'a':2}") = Ok (PyDict {[ str "a" := PyInt 2 ]}) /\
  json_loads (dq "'\ud83d\ude00'") = Ok (PyStr [128512]) /\
  json_loads (dq "{'a':1,}") = Raise (JSONDecodeError (dq "{'a':1,}")) /\
  json_loads (str "[1,]") = Raise (JSONDecodeError (str "[1,]")) /\
  json_loads (str "01") = Raise (JSONDecodeError (str "01")) /\
  json_loads (str "{'a':1}") = Raise (JSONDecodeError (str "{'a':1}")) /\
  json_loads [] = Raise (JSONDecodeError []).
Proof. repeat split; vm_compute; reflexivity. Qed.

(** The search keeps everything between the first opening and the last
    closing brace. *)
Example search_braces_examples :
  search_braces (str "x}y{z}w{") = Some (str "{z}") /\
  search_braces (str "{}{}") = Some (str "{}{}") /\
  search_braces (str "} {") = None.
Proof. repeat split; vm_compute; reflexivity. Qed.

(** In the "Extract" action the exception of the second parse is caught:
    the answer with two objects ends in the error message and the session
    stays empty. *)
Example extract_action_two_objects :
  extract_action chatty_model_world demo_config (str "notes.txt")
    (str "Alice has Python and Go skills.") (str "List the skills mentioned.") ∅
  = Run [ StSpinner (str "Reading + extracting...");
          GroqCreate (str "llama-3.1-8b-instant") system_prompt
            (user_prompt (str "List the skills mentioned.")
               (str "Alice has Python and Go skills."));
          StError (str "Extraction failed: JSONDecodeError") ]
        ∅ (Ok tt).
Proof. vm_compute; reflexivity. Qed.

(** The scenario of the skills, from the upload to the status of the mail. *)
Example skills_scenario :
  let extracted :=
    extract_action skills_world demo_config (str "cv.txt")
      (str "Alice has Python and Go skills.") (str "List the skills mentioned.") ∅ in
  outcome extracted = Ok tt /\
  final extracted !! str "extracted_json" = Some skills_json /\
  final extracted !! str "raw_text" = Some (PyStr (str "Alice has Python and Go skills.")) /\
  last (trace (send_alert_action skills_world demo_config (str "ops@example.com")
                 (final extracted)))
    = Some (StSuccess (PyStr (str "queued"))).
Proof. repeat split; vm_compute; reflexivity. Qed.

(** * Further properties of the script *)

(** ** Reading the document *)

(** X1: when the layout-aware method succeeds, the text is its page texts
    joined with a newline, a page without text counting as empty, and the
    fallback library is not called. *)
Theorem extract_text_from_pdf_layout_first
    (ext : externals) (file_bytes : list N) (st : gmap (list N) pyval)
    (pages : list (option (list N))) :
  pdfplumber_pages ext file_bytes = Ok pages ->
  extract_text_from_pdf ext file_bytes st
  = Run [PdfplumberOpen file_bytes] st (Ok (join [10] (map (default []) pages))).
Proof.
  intros H. rewrite extract_text_from_pdf_run, H. do 2 f_equal. f_equal.
  apply map_ext. intros [[|c r]|]; reflexivity.
Qed.

Lemma endswith_app (stem suffix : list N) : endswith (stem ++ suffix) suffix = true.
Proof.
  unfold endswith. rewrite reverse_app. generalize (reverse stem) as t.
  induction (reverse suffix) as [|a p IH]; intros t; simpl; [by destruct t|].
  by rewrite N.eqb_refl, IH.
Qed.

Lemma lower_app (s t : list N) : lower (s ++ t) = lower s ++ lower t.
Proof. apply map_app. Qed.

(** X3: the kind of the file is read off the end of its name, whatever the
    case of the letters: a name ending in [.pdf], [.PDF], [.Pdf], ... is
    handed to the PDF extraction. *)
Theorem read_document_pdf_suffix
    (ext : externals) (stem suffix raw : list N) (st : gmap (list N) pyval) :
  lower suffix = str ".pdf" ->
  read_document ext (stem ++ suffix) raw st = extract_text_from_pdf ext raw st.
Proof.
  intros H. unfold read_document. by rewrite lower_app, H, endswith_app.
Qed.

(** X2: a file whose name does not end in [.pdf] is decoded as text, which
    cannot fail: no PDF library is called and the "Extract" action always
    ends normally, whatever the bytes and whatever the model answers. *)
Theorem extract_action_text_file_never_raises
    (ext : externals) (cfg : config) (name raw question : list N)
    (st : gmap (list N) pyval) :
  endswith (lower name) (str ".pdf") = false ->
  let r := extract_action ext cfg name raw question st in
  outcome r = Ok tt /\
  List.filter is_pdf_call (trace r) = [] /\
  exists text, extract_text_from_txt raw = Ok text /\
               List.filter is_llm_call (trace r)
               = [GroqCreate (GROQ_MODEL cfg) system_prompt (user_prompt question text)].
Proof.
  intros Hname r. subst r. rewrite extract_action_run. cbv zeta.
  unfold read_document. rewrite Hname.
  destruct (decode_utf8_ignore_keeps (length raw) raw) as (text & Htext & _); [done|].
  unfold extract_text_from_txt, lift. rewrite Htext. cbn [outcome trace].
  rewrite ask_groq_json_run. cbn [outcome trace].
  destruct (groq_create _ _ _ _) as [content|e].
  - destruct (outcome (parse_content content st)); cbn; eauto.
  - cbn; eauto.
Qed.

(** ** Decoding what was encoded *)

Ltac decide_tests :=
  repeat (match goal with
          | |- context [?a <? ?b] => destruct (N.ltb_spec a b); try lia
          | |- context [?a <=? ?b] => destruct (N.leb_spec a b); try lia
          | |- context [?a =? ?b] => destruct (N.eqb_spec a b); try lia
          end; cbn [andb orb negb]).

Lemma decode_utf8_encode_char errors (c : N) (b : list N) :
  is_scalar c = true ->
  decode_utf8 errors (utf8_encode_char c ++ b) = emit_char c (decode_utf8 errors b).
Proof.
  unfold is_scalar. intros Hc.
  assert (c < 55296 \/ 57344 <= c < 1114112) as Hrange.
  { apply orb_prop in Hc as [H%N.ltb_lt | [H1%N.leb_le H2%N.ltb_lt]%andb_prop]; lia. }
  clear Hc.
  pose proof (N.div_mod c 64 ltac:(lia)) as D1. pose proof (N.mod_lt c 64 ltac:(lia)) as M1.
  pose proof (N.div_mod (c / 64) 64 ltac:(lia)) as D2.
  pose proof (N.mod_lt (c / 64) 64 ltac:(lia)) as M2.
  pose proof (N.div_mod (c / 64 / 64) 64 ltac:(lia)) as D3.
  pose proof (N.mod_lt (c / 64 / 64) 64 ltac:(lia)) as M3.
  unfold utf8_encode_char.
  replace (c / 4096) with (c / 64 / 64) by (by rewrite N.Div0.div_div).
  replace (c / 262144) with (c / 64 / 64 / 64) by (by rewrite !N.Div0.div_div).
  set (r := c mod 64) in *. set (q := c / 64) in *.
  set (m := q mod 64) in *. set (q1 := q / 64) in *.
  set (m1 := q1 mod 64) in *. set (q2 := q1 / 64) in *.
  destruct (N.ltb_spec c 128); [|destruct (N.ltb_spec c 2048); [|destruct (N.ltb_spec c 65536)]];
    cbn [app decode_utf8]; unfold is_continuation; decide_tests;
    f_equal; lia.
Qed.

(** X4: a text file that starts with the UTF-8 form of a string of scalar
    values is decoded to that string followed by the decoding of the rest;
    in particular a well-formed file gives back the string it encodes, and
    errors further on do not disturb the text before them. *)
Theorem extract_text_from_txt_keeps_encoded_prefix (s : list N) (rest : list N) :
  Forall (fun c => is_scalar c = true) s ->
  extract_text_from_txt (utf8_encode s ++ rest)
  = match extract_text_from_txt rest with
    | Ok t => Ok (s ++ t)
    | Raise e => Raise e
    end /\
  extract_text_from_txt (utf8_encode s) = Ok s.
Proof.
  intros Hs.
  assert (forall b, decode_utf8 ignore (utf8_encode s ++ b)
                    = match decode_utf8 ignore b with
                      | Ok t => Ok (s ++ t)
                      | Raise e => Raise e
                      end) as Hgen.
  { intros b. induction Hs as [|c s Hc _ IH];
      [cbn [utf8_encode map concat app]; by destruct (decode_utf8 ignore b)|].
    rewrite utf8_encode_cons, <- app_assoc, decode_utf8_encode_char by done.
    rewrite IH. unfold emit_char. by destruct (decode_utf8 ignore b). }
  unfold extract_text_from_txt. split; [apply Hgen|].
  specialize (Hgen []). cbn [decode_utf8] in Hgen.
  rewrite !app_nil_r in Hgen. exact Hgen.
Qed.

Lemma extract_text_from_txt_keeps_encoded_prefix_witness :
  extract_text_from_txt (utf8_encode [104; 233; 8364; 128512] ++ [255; 33])
  = Ok [104; 233; 8364; 128512; 33].
Proof.
  exact (proj1 (extract_text_from_txt_keeps_encoded_prefix
                  [104; 233; 8364; 128512] [255; 33]
                  ltac:(repeat constructor))).
Defined.

Lemma extract_text_from_pdf_layout_first_witness :
  extract_text_from_pdf layout_pdf_world (str "%PDF-1.4") ∅
  = Run [PdfplumberOpen (str "%PDF-1.4")] ∅
      (Ok (str "page one" ++ [10; 10] ++ str "page three")).
Proof.
  exact (extract_text_from_pdf_layout_first layout_pdf_world (str "%PDF-1.4") ∅
           [Some (str "page one"); None; Some (str "page three")] eq_refl).
Defined.

Lemma read_document_pdf_suffix_witness :
  read_document fallback_pdf_world (str "Report.PdF") (str "%PDF-1.4") ∅
  = extract_text_from_pdf fallback_pdf_world (str "%PDF-1.4") ∅.
Proof.
  exact (read_document_pdf_suffix fallback_pdf_world (str "Report") (str ".PdF")
           (str "%PDF-1.4") ∅ eq_refl).
Defined.

Lemma extract_action_text_file_never_raises_witness :
  outcome (extract_action broken_pdf_world demo_config (str "notes.pdf.txt")
             [255; 254; 104; 105] (str "List the skills mentioned.") ∅) = Ok tt.
Proof.
  exact (proj1 (extract_action_text_file_never_raises broken_pdf_world demo_config
                  (str "notes.pdf.txt") [255; 254; 104; 105]
                  (str "List the skills mentioned.") ∅ eq_refl)).
Defined.

(** ** Short texts and the shape of the prompt *)

(** The two slices leave a short text as it is and cut a longer one to
    exactly 20,000 and 50,000 characters. *)
Theorem truncation_is_exact (text : list N) :
  ((Z.of_nat (length text) <= 20000)%Z -> prompt_text text = text) /\
  ((Z.of_nat (length text) <= 50000)%Z -> retained_text text = text) /\
  ((20000 < Z.of_nat (length text))%Z ->
     Z.of_nat (length (prompt_text text)) = 20000%Z) /\
  ((50000 < Z.of_nat (length text))%Z ->
     Z.of_nat (length (retained_text text)) = 50000%Z).
Proof.
  unfold prompt_text, retained_text.
  split; [apply slice_to_short|]. split; [apply slice_to_short|].
  split; intros H; rewrite slice_to_nonneg, length_take by lia; lia.
Qed.

Lemma lstrip_app_keep (u v : list N) :
  (exists x, x ∈ u /\ isspace x = false) -> lstrip (u ++ v) = lstrip u ++ v.
Proof.
  induction u as [|y u IH]; intros (x & Hx & Hs).
  { by apply elem_of_nil in Hx. }
  simpl. destruct (isspace y) eqn:Hy; [|done].
  apply IH. exists x. split; [|done].
  apply elem_of_cons in Hx as [->|Hx]; [congruence | done].
Qed.

Lemma rstrip_app_keep (a b : list N) :
  (exists x, x ∈ b /\ isspace x = false) -> rstrip (a ++ b) = a ++ rstrip b.
Proof.
  intros (x & Hx & Hs). unfold rstrip.
  rewrite reverse_app, lstrip_app_keep, reverse_app, reverse_involutive; [done|].
  exists x. by rewrite elem_of_reverse.
Qed.

(** X6: the user instruction is the fixed head without its leading line
    break, the question as it was typed, the header of the document and the
    first 20,000 characters of the text without trailing white space. *)
Theorem user_prompt_shape (question text : list N) :
  user_prompt question text
  = drop 1 prompt_head ++ question ++ rstrip (prompt_mid ++ prompt_text text).
Proof.
  unfold user_prompt, strip.
  assert (prompt_head = 10 :: 82 :: drop 2 prompt_head) as Hhead
    by (vm_compute; reflexivity).
  assert (drop 1 prompt_head = 82 :: drop 2 prompt_head) as Hdrop
    by (vm_compute; reflexivity).
  rewrite Hdrop. rewrite Hhead at 1.
  change ((10 :: 82 :: drop 2 prompt_head) ++ ?x) with (10 :: 82 :: drop 2 prompt_head ++ x).
  cbn [lstrip]. change (isspace 10) with true. change (isspace 82) with false. cbv iota.
  set (pre := 82 :: drop 2 prompt_head).
  change (82 :: drop 2 prompt_head ++ ?x) with (pre ++ x).
  replace (pre ++ question ++ prompt_mid ++ prompt_text text ++ prompt_tail)
    with ((pre ++ question ++ prompt_mid ++ prompt_text text) ++ prompt_tail)
    by (by rewrite <- !app_assoc).
  rewrite rstrip_app_spaces by (by repeat constructor).
  rewrite !app_assoc, <- (app_assoc (pre ++ question)).
  rewrite rstrip_app_keep; [done|].
  exists 68. split; [|reflexivity].
  apply elem_of_app. left. vm_compute. repeat constructor.
Qed.

(** ** The answer of the model *)

(** X7: a message without content (the content is [None]) is rejected by
    both [json.loads] and [re.search]; the [TypeError] is caught by the
    "Extract" action, which shows it and leaves the session as it was. *)
Theorem extract_action_without_content
    (ext : externals) (cfg : config) (name raw question text : list N)
    (st : gmap (list N) pyval) :
  outcome (read_document ext name raw st) = Ok text ->
  groq_create ext (GROQ_MODEL cfg) system_prompt (user_prompt question text) = Ok None ->
  extract_action ext cfg name raw question st
  = Run (StSpinner (str "Reading + extracting...")
         :: trace (read_document ext name raw st)
         ++ [GroqCreate (GROQ_MODEL cfg) system_prompt (user_prompt question text);
             StError (str "Extraction failed: " ++ str_exn ext TypeError)])
      st (Ok tt).
Proof.
  intros Hdoc Hnone. rewrite extract_action_run. cbv zeta. rewrite Hdoc.
  rewrite ask_groq_json_run. cbn [outcome trace]. rewrite Hnone.
  rewrite parse_content_none. reflexivity.
Qed.

Lemma extract_action_without_content_witness :
  extract_action silent_model_world demo_config (str "cv.txt")
    (str "Alice has Python and Go skills.") (str "List the skills mentioned.") ∅
  = Run [ StSpinner (str "Reading + extracting...");
          GroqCreate (str "llama-3.1-8b-instant") system_prompt
            (user_prompt (str "List the skills mentioned.")
               (str "Alice has Python and Go skills."));
          StError (str "Extraction failed: TypeError") ]
        ∅ (Ok tt).
Proof.
  exact (extract_action_without_content silent_model_world demo_config (str "cv.txt")
           (str "Alice has Python and Go skills.") (str "List the skills mentioned.")
           (str "Alice has Python and Go skills.") ∅ eq_refl eq_refl).
Defined.

Lemma search_braces_no_pair content :
  (forall pre mid post, content <> pre ++ 123 :: mid ++ 125 :: post) ->
  search_braces content = None.
Proof.
  intros H. destruct (search_braces content) as [m|] eqn:E; [|done].
  apply search_braces_some in E as (pre & mid & post & -> & _).
  by destruct (H pre mid post).
Qed.

(** X8: a content in which no opening brace is followed by a closing brace
    never makes the parsing phase raise: the phase returns a value, and
    whenever the first [json.loads] raises that value is the mapping from
    [raw] to the content. *)
Theorem parse_content_without_braces_never_raises
    (content : list N) (st : gmap (list N) pyval) :
  (forall pre mid post, content <> pre ++ 123 :: mid ++ 125 :: post) ->
  exists v,
    parse_content (Some content) st = Run [] st (Ok v) /\
    (forall e, json_loads content = Raise e ->
               v = PyDict {[ str "raw" := PyStr content ]}).
Proof.
  intros H. rewrite parse_content_run, (search_braces_no_pair _ H).
  destruct (json_loads content) as [v|e]; eexists; (split; [reflexivity|]).
  - intros e He. discriminate He.
  - intros _ _. reflexivity.
Qed.

Lemma parse_content_without_braces_never_raises_witness :
  exists v,
    parse_content (Some (str "} sorry, no data {")) ∅ = Run [] ∅ (Ok v) /\
    (forall e, json_loads (str "} sorry, no data {") = Raise e ->
               v = PyDict {[ str "raw" := PyStr (str "} sorry, no data {") ]}).
Proof.
  refine (parse_content_without_braces_never_raises (str "} sorry, no data {") ∅ _).
  apply search_braces_none. vm_compute. reflexivity.
Defined.

Lemma from_first_fresh c pre rest :
  c ∉ pre -> from_first c (pre ++ c :: rest) = c :: rest.
Proof.
  induction pre as [|y pre IH]; intros Hpre; simpl.
  - by rewrite N.eqb_refl.
  - apply not_elem_of_cons in Hpre as [Hne Hpre].
    destruct (N.eqb_spec y c); [congruence | by apply IH].
Qed.

Lemma search_braces_span pre mid post :
  123 ∉ pre -> 125 ∉ post ->
  search_braces (pre ++ 123 :: mid ++ 125 :: post) = Some (123 :: mid ++ [125]).
Proof.
  intros Hpre Hpost. unfold search_braces, through_last_rbrace.
  rewrite from_first_fresh by done.
  rewrite reverse_app, reverse_cons, <- app_assoc. cbn [app].
  rewrite from_first_fresh by (by rewrite elem_of_reverse).
  by rewrite reverse_cons, reverse_involutive.
Qed.

(** X9: when the content as a whole is not JSON but holds an opening brace
    with a closing brace after it, what is parsed is the span from the first
    opening brace to the last closing brace, the text around it being
    dropped; the outcome of the phase is the outcome of that parse. *)
Theorem parse_content_recovers_span
    (pre mid post : list N) (e : exn) (st : gmap (list N) pyval) :
  123 ∉ pre -> 125 ∉ post ->
  json_loads (pre ++ 123 :: mid ++ 125 :: post) = Raise e ->
  parse_content (Some (pre ++ 123 :: mid ++ 125 :: post)) st
  = Run [] st (json_loads (123 :: mid ++ [125])).
Proof.
  intros Hpre Hpost Hfail.
  by rewrite parse_content_run, Hfail, search_braces_span.
Qed.

Lemma parse_content_recovers_span_witness :
  parse_content (Some (str "Sure! " ++ 123 :: dq "'a': [1, 2]" ++ 125 :: str " Anything else?")) ∅
  = Run [] ∅ (Ok (PyDict {[ str "a" := PyList [PyInt 1; PyInt 2] ]})).
Proof.
  refine (parse_content_recovers_span (str "Sure! ") (dq "'a': [1, 2]")
            (str " Anything else?")
            (JSONDecodeError (str "Sure! " ++ 123 :: dq "'a': [1, 2]" ++ 125
                              :: str " Anything else?")) ∅ _ _ _).
  - vm_compute. intros H. repeat (apply elem_of_cons in H as [H|H]; [discriminate H|]).
    by apply elem_of_nil in H.
  - vm_compute. intros H. repeat (apply elem_of_cons in H as [H|H]; [discriminate H|]).
    by apply elem_of_nil in H.
  - vm_compute. reflexivity.
Defined.

(** ** What each action touches *)

Lemma filter_nil_Forall {A} (f : A -> bool) (l : list A) :
  Forall (fun x => f x = false) l -> List.filter f l = [].
Proof. induction 1 as [|x l Hx _ IH]; simpl; [done|]. by rewrite Hx. Qed.

Lemma read_document_only_pdf_calls (ext : externals) name raw st :
  Forall (fun ev => is_pdf_call ev = true) (trace (read_document ext name raw st)).
Proof.
  apply Forall_forall. intros ev Hev.
  by destruct (read_document_trace _ _ _ _ _ Hev) as [-> | ->].
Qed.

Lemma read_document_filter (ext : externals) name raw st (f : event -> bool) :
  (forall ev, is_pdf_call ev = true -> f ev = false) ->
  List.filter f (trace (read_document ext name raw st)) = [].
Proof.
  intros Hf. apply filter_nil_Forall.
  eapply Forall_impl; [apply read_document_only_pdf_calls | exact Hf].
Qed.

Lemma read_document_state_free (ext : externals) name raw st st' :
  trace (read_document ext name raw st) = trace (read_document ext name raw st') /\
  outcome (read_document ext name raw st) = outcome (read_document ext name raw st').
Proof.
  unfold read_document. destruct (endswith _ _); [|done].
  rewrite !extract_text_from_pdf_run. by destruct (pdfplumber_pages ext raw).
Qed.

Lemma parse_content_state_free content st st' :
  outcome (parse_content content st) = outcome (parse_content content st').
Proof. destruct content; [by rewrite !parse_content_run | done]. Qed.

Lemma ask_groq_json_state_free (ext : externals) cfg system user st st' :
  outcome (ask_groq_json ext cfg system user st)
  = outcome (ask_groq_json ext cfg system user st').
Proof.
  rewrite !ask_groq_json_run. cbn [outcome].
  destruct (groq_create _ _ _ _); [apply parse_content_state_free | done].
Qed.

Lemma send_alert_action_final (ext : externals) cfg recip st :
  final (send_alert_action ext cfg recip st) = st.
Proof.
  unfold send_alert_action. destruct (N8N_WEBHOOK_URL cfg) as [|c u]; [done|].
  unfold bind, get_item, emit, try_except, lift; cbn -[str lookup insert].
  destruct (st !! str "question"); [|done].
  destruct (st !! str "raw_text"); [|done].
  destruct (st !! str "extracted_json"); [|done]. cbn -[str lookup insert].
  destruct (requests_post _ _ _ _) as [r|e]; [|done]. cbn -[str lookup insert].
  by destruct (response_data r).
Qed.

Lemma send_alert_action_outcome (ext : externals) cfg recip st :
  is_Some (st !! str "question") -> is_Some (st !! str "raw_text") ->
  is_Some (st !! str "extracted_json") ->
  outcome (send_alert_action ext cfg recip st) = Ok tt.
Proof.
  intros [q Hq] [t Ht] [j Hj].
  unfold send_alert_action. destruct (N8N_WEBHOOK_URL cfg) as [|c u]; [done|].
  unfold bind, get_item, emit, try_except, lift; cbn -[str lookup insert]. rewrite Hq, Ht, Hj. cbn -[str lookup insert].
  destruct (requests_post _ _ _ _) as [r|e]; [|done]. cbn -[str lookup insert].
  by destruct (response_data r).
Qed.

Lemma send_alert_action_filter (ext : externals) cfg recip st (f : event -> bool) :
  (forall ev, is_post ev = false -> f ev = false) ->
  (length (List.filter f (trace (send_alert_action ext cfg recip st))) <= 1)%nat.
Proof.
  intros Hf.
  unfold send_alert_action. destruct (N8N_WEBHOOK_URL cfg) as [|c u];
    [cbn -[str lookup insert]; rewrite Hf by done; cbn; lia|].
  unfold bind, get_item, emit, try_except, lift; cbn -[str lookup insert].
  destruct (st !! str "question"); [|cbn -[str lookup insert]; rewrite Hf by done; cbn; lia].
  destruct (st !! str "raw_text"); [|cbn -[str lookup insert]; rewrite Hf by done; cbn; lia].
  destruct (st !! str "extracted_json"); [|cbn -[str lookup insert]; rewrite Hf by done; cbn; lia]. cbn -[str lookup insert].
  destruct (requests_post _ _ _ _) as [r|e]; cbn -[str lookup insert].
  - destruct (response_data r); cbn -[str lookup insert];
      destruct (f (RequestsPost _ _ _)); rewrite !Hf by done; cbn; lia.
  - destruct (f (RequestsPost _ _ _)); rewrite !Hf by done; cbn; lia.
Qed.

(** X11: the "Send Alert Mail" action never changes the session, never
    calls the model or a PDF library, and posts at most one request, in every
    case: webhook missing, session incomplete, request failed, answer
    unreadable. *)
Theorem send_alert_action_confined
    (ext : externals) (cfg : config) (recip : list N) (st : gmap (list N) pyval) :
  let r := send_alert_action ext cfg recip st in
  final r = st /\
  List.filter is_llm_call (trace r) = [] /\
  List.filter is_pdf_call (trace r) = [] /\
  (length (List.filter is_post (trace r)) <= 1)%nat.
Proof.
  cbv zeta. split; [apply send_alert_action_final|].
  assert (forall f : event -> bool,
            (forall ev, is_llm_call ev = false -> is_pdf_call ev = false -> f ev = false) ->
            List.filter f (trace (send_alert_action ext cfg recip st)) = []) as Hnone.
  { intros f Hf.
    unfold send_alert_action. destruct (N8N_WEBHOOK_URL cfg) as [|c u];
      [cbn -[str lookup insert]; by rewrite Hf|].
    unfold bind, get_item, emit, try_except, lift; cbn -[str lookup insert].
    destruct (st !! str "question"); [|cbn -[str lookup insert]; by rewrite Hf].
    destruct (st !! str "raw_text"); [|cbn -[str lookup insert]; by rewrite Hf].
    destruct (st !! str "extracted_json"); [|cbn -[str lookup insert]; by rewrite Hf].
    cbn -[str lookup insert].
    destruct (requests_post _ _ _ _) as [r|e]; cbn -[str lookup insert];
      [|by rewrite !Hf].
    destruct (response_data r); cbn -[str lookup insert]; by rewrite !Hf. }
  split; [by apply Hnone|].
  split; [by apply Hnone|].
  by apply send_alert_action_filter.
Qed.

(** X10: an answer whose body parses as JSON but not to an object (an
    array, a string, a number, [null]) has no [get]: the first heading is
    shown, then the error message of the action, which ends normally with
    the session unchanged. *)
Theorem send_alert_action_non_object_answer
    (ext : externals) (cfg : config) (recip : list N)
    (st : gmap (list N) pyval) (q t j v : pyval) (r : response) :
  N8N_WEBHOOK_URL cfg <> [] ->
  st !! str "question" = Some q ->
  st !! str "raw_text" = Some t ->
  st !! str "extracted_json" = Some j ->
  requests_post ext (N8N_WEBHOOK_URL cfg) (payload q t j recip) 60 = Ok r ->
  json_loads (text r) = Ok v ->
  (forall d, v <> PyDict d) ->
  send_alert_action ext cfg recip st
  = Run [ StSpinner (str "Calling n8n webhook...");
          RequestsPost (N8N_WEBHOOK_URL cfg) (payload q t j recip) 60;
          StSubheader (str "Final Analytical Answer (from n8n)");
          StError (str "Webhook failed: " ++ str_exn ext (AttributeError v)) ]
        st (Ok tt).
Proof.
  intros Hurl Hq Ht Hj Hpost Hv Hd.
  rewrite (send_alert_action_run ext cfg recip st q t j Hurl Hq Ht Hj).
  cbv zeta. rewrite Hpost. unfold response_data. rewrite Hv.
  by rewrite (render_other v st Hd).
Qed.

Lemma send_alert_action_non_object_answer_witness :
  send_alert_action array_answer_world demo_config (str "ops@example.com") demo_session
  = Run [ StSpinner (str "Calling n8n webhook...");
          RequestsPost (N8N_WEBHOOK_URL demo_config)
            (payload (PyStr (str "List the skills mentioned."))
               (PyStr (str "Alice has Python and Go skills."))
               (PyDict {[ str "risk_level" := PyStr (str "Low") ]})
               (str "ops@example.com")) 60;
          StSubheader (str "Final Analytical Answer (from n8n)");
          StError (str "Webhook failed: " ++ show_exn (AttributeError (PyList []))) ]
        demo_session (Ok tt).
Proof.
  refine (send_alert_action_non_object_answer array_answer_world demo_config
            (str "ops@example.com") demo_session
            (PyStr (str "List the skills mentioned."))
            (PyStr (str "Alice has Python and Go skills."))
            (PyDict {[ str "risk_level" := PyStr (str "Low") ]})
            (PyList []) (Response 200 (str "[]")) _ _ _ _ _ _ _).
  - discriminate.
  - vm_compute; reflexivity.
  - vm_compute; reflexivity.
  - vm_compute; reflexivity.
  - reflexivity.
  - vm_compute; reflexivity.
  - discriminate.
Defined.

(** X13: with the webhook configured, a session that lacks one of the three
    fields makes the action raise [KeyError] for a missing key, uncaught,
    after the spinner and before any request is posted. *)
Theorem send_alert_action_missing_field
    (ext : externals) (cfg : config) (recip : list N) (st : gmap (list N) pyval) :
  N8N_WEBHOOK_URL cfg <> [] ->
  st !! str "question" = None \/ st !! str "raw_text" = None
    \/ st !! str "extracted_json" = None ->
  exists key,
    st !! key = None /\
    send_alert_action ext cfg recip st
    = Run [StSpinner (str "Calling n8n webhook...")] st (Raise (KeyError key)).
Proof.
  intros Hurl Hmissing. unfold send_alert_action.
  destruct (N8N_WEBHOOK_URL cfg) as [|c u]; [done|].
  unfold bind, get_item, emit, try_except, lift; cbn -[str lookup insert].
  destruct (st !! str "question") eqn:Hq;
    [|exists (str "question"); split; [exact Hq | reflexivity]].
  destruct (st !! str "raw_text") eqn:Ht;
    [|exists (str "raw_text"); split; [exact Ht | reflexivity]].
  destruct (st !! str "extracted_json") eqn:Hj;
    [|exists (str "extracted_json"); split; [exact Hj | reflexivity]].
  destruct Hmissing as [H|[H|H]]; discriminate H.
Qed.

Lemma send_alert_action_missing_field_witness :
  exists key,
    (∅ : gmap (list N) pyval) !! key = None /\
    send_alert_action skills_world demo_config (str "ops@example.com") ∅
    = Run [StSpinner (str "Calling n8n webhook...")] ∅ (Raise (KeyError key)).
Proof.
  apply (send_alert_action_missing_field skills_world demo_config).
  - discriminate.
  - left. reflexivity.
Defined.

Lemma ask_groq_json_trace (ext : externals) cfg system user st :
  trace (ask_groq_json ext cfg system user st) = [GroqCreate (GROQ_MODEL cfg) system user].
Proof. by rewrite ask_groq_json_run. Qed.

(** The session after the "Extract" action: as before, or with the three
    fields set. *)
Lemma extract_action_final (ext : externals) cfg name raw question st :
  final (extract_action ext cfg name raw question st) = st \/
  exists text data,
    outcome (read_document ext name raw st) = Ok text /\
    outcome (ask_groq_json ext cfg system_prompt (user_prompt question text) st) = Ok data /\
    final (extract_action ext cfg name raw question st)
    = <[str "extracted_json" := data]>
        (<[str "question" := PyStr question]>
          (<[str "raw_text" := PyStr (retained_text text)]> st)).
Proof.
  rewrite extract_action_run. cbv zeta.
  destruct (outcome (read_document ext name raw st)) as [text|e]; [|by left].
  destruct (outcome (ask_groq_json _ _ _ _ _)) as [data|e] eqn:E; [|by left].
  right. by exists text, data.
Qed.

Lemma extract_action_filter (ext : externals) cfg name raw question st (f : event -> bool) :
  (forall ev, is_pdf_call ev = true -> f ev = false) ->
  (forall ev, is_llm_call ev = true -> f ev = false) ->
  (forall m, f (StError m) = false) -> (forall m, f (StSpinner m) = false) ->
  List.filter f (trace (extract_action ext cfg name raw question st)) = [].
Proof.
  intros Hpdf Hllm Herr Hspin. rewrite extract_action_run. cbv zeta.
  pose proof (read_document_filter ext name raw st f Hpdf) as Hdoc.
  destruct (outcome (read_document ext name raw st)) as [text|e]; cbn [trace].
  - destruct (outcome (ask_groq_json _ _ _ _ _)); cbn [trace];
      rewrite ask_groq_json_trace; cbn [List.filter]; rewrite Hspin;
      rewrite ?List.filter_app, Hdoc; cbn [List.filter app];
      rewrite ?Hllm, ?Herr by done; done.
  - cbn [List.filter]. by rewrite Hspin.
Qed.

(** X12: the "Extract" action never posts to the webhook; it calls the
    model once when the text of the document could be read and not at all
    otherwise; and it leaves every key of the session other than its three
    fields as it was. *)
Theorem extract_action_confined
    (ext : externals) (cfg : config) (name raw question : list N)
    (st : gmap (list N) pyval) :
  let r := extract_action ext cfg name raw question st in
  List.filter is_post (trace r) = [] /\
  List.filter is_llm_call (trace r)
  = match outcome (read_document ext name raw st) with
    | Ok text => [GroqCreate (GROQ_MODEL cfg) system_prompt (user_prompt question text)]
    | Raise _ => []
    end /\
  (forall k, k <> str "raw_text" -> k <> str "question" -> k <> str "extracted_json" ->
             final r !! k = st !! k).
Proof.
  cbv zeta. split; [apply extract_action_filter; by intros []|].
  split.
  - rewrite extract_action_run. cbv zeta.
    assert (List.filter is_llm_call (trace (read_document ext name raw st)) = [])
      as Hdoc by (apply read_document_filter; by intros []).
    destruct (outcome (read_document ext name raw st)) as [text|e]; cbn [trace].
    + destruct (outcome (ask_groq_json _ _ _ _ _)); cbn [trace];
        rewrite ask_groq_json_trace; cbn [List.filter is_llm_call];
        rewrite ?List.filter_app, Hdoc; done.
    + cbn [List.filter is_llm_call]. exact Hdoc.
  - intros k H1 H2 H3.
    destruct (extract_action_final ext cfg name raw question st)
      as [-> | (text & data & _ & _ & ->)]; [done|].
    by rewrite !lookup_insert_ne.
Qed.

Lemma three_fields_overwritten (st : gmap (list N) pyval) (a b c a' b' c' : pyval) :
  <[str "extracted_json" := a']>
    (<[str "question" := b']>
      (<[str "raw_text" := c']>
        (<[str "extracted_json" := a]>
          (<[str "question" := b]> (<[str "raw_text" := c]> st)))))
  = <[str "extracted_json" := a']>
      (<[str "question" := b']> (<[str "raw_text" := c']> st)).
Proof.
  apply map_eq. intros k.
  destruct (decide (k = str "extracted_json")) as [->|H1];
    [by rewrite !lookup_insert_eq|].
  rewrite !(lookup_insert_ne _ (str "extracted_json")) by done.
  destruct (decide (k = str "question")) as [->|H2];
    [by rewrite !lookup_insert_eq|].
  rewrite !(lookup_insert_ne _ (str "question")) by done.
  destruct (decide (k = str "raw_text")) as [->|H3];
    [by rewrite !lookup_insert_eq|].
  rewrite !(lookup_insert_ne _ (str "raw_text")) by done.
  rewrite !(lookup_insert_ne _ (str "extracted_json")) by done.
  rewrite !(lookup_insert_ne _ (str "question")) by done.
  by rewrite !(lookup_insert_ne _ (str "raw_text")) by done.
Qed.

(** X14: a successful extraction overwrites the three fields as a whole:
    the session it leaves does not depend on what an earlier "Extract",
    successful or not, had left in them. *)
Theorem extract_action_overwrites
    (ext : externals) (cfg : config)
    (name1 raw1 question1 name2 raw2 question2 text2 : list N) (data2 : pyval)
    (st : gmap (list N) pyval) :
  outcome (read_document ext name2 raw2 st) = Ok text2 ->
  outcome (ask_groq_json ext cfg system_prompt (user_prompt question2 text2) st)
    = Ok data2 ->
  final (extract_action ext cfg name2 raw2 question2
           (final (extract_action ext cfg name1 raw1 question1 st)))
  = final (extract_action ext cfg name2 raw2 question2 st).
Proof.
  intros Hdoc Hask.
  assert (forall st', final (extract_action ext cfg name2 raw2 question2 st')
                      = <[str "extracted_json" := data2]>
                          (<[str "question" := PyStr question2]>
                            (<[str "raw_text" := PyStr (retained_text text2)]> st')))
    as Hsecond.
  { intros st'. rewrite extract_action_run. cbv zeta.
    rewrite <- (proj2 (read_document_state_free ext name2 raw2 st st')), Hdoc.
    by rewrite <- (ask_groq_json_state_free ext cfg _ _ st st'), Hask. }
  rewrite !Hsecond.
  destruct (extract_action_final ext cfg name1 raw1 question1 st)
    as [-> | (text1 & data1 & _ & _ & ->)]; [done|].
  apply three_fields_overwritten.
Qed.

Lemma extract_action_overwrites_witness :
  final (extract_action skills_world demo_config (str "cv.txt")
           (str "Alice has Python and Go skills.") (str "List the skills mentioned.")
           demo_session)
  = final (extract_action skills_world demo_config (str "cv.txt")
             (str "Alice has Python and Go skills.") (str "List the skills mentioned.") ∅).
Proof.
  pose proof (extract_action_overwrites skills_world demo_config
                (str "old.txt") (str "Alice has Python and Go skills.")
                (str "List the skills mentioned.")
                (str "cv.txt") (str "Alice has Python and Go skills.")
                (str "List the skills mentioned.")
                (str "Alice has Python and Go skills.") skills_json ∅) as H.
  etrans; [|apply H; vm_compute; reflexivity].
  vm_compute. reflexivity.
Defined.

(** ** The page *)

Lemma recipient_email_ne_fields :
  str "recipient_email" <> str "question" /\
  str "recipient_email" <> str "raw_text" /\
  str "recipient_email" <> str "extracted_json".
Proof. repeat split; distinct_keys. Qed.

(** The run of stage 2, by what the session holds and what was pressed. *)
Lemma alert_stage_run (ext : externals) cfg inp st :
  alert_stage ext cfg inp st =
  match st !! str "extracted_json" with
  | None => Run [] st (Ok tt)
  | Some j =>
      let st' := <[str "recipient_email" := PyStr (recipient_box inp)]> st in
      let shown := [ StSubheader (str "Structured Data Extracted (JSON)"); StJson j;
                     StSubheader (str "Send Conditional Alert Email (via n8n)") ] in
      if send_clicked inp && nonempty (recipient_box inp) then
        let sent := send_alert_action ext cfg (recipient_box inp) st' in
        Run (shown ++ trace sent) (final sent) (outcome sent)
      else Run shown st' (Ok tt)
  end.
Proof.
  unfold alert_stage, bind at 1, contains at 1.
  destruct (st !! str "extracted_json") as [j|] eqn:Hj.
  - rewrite bool_decide_eq_true_2 by eauto.
    unfold bind at 1, emit at 1. unfold bind at 1, get_item at 1. rewrite Hj.
    unfold bind at 1, emit at 1. unfold bind at 1, emit at 1.
    unfold bind at 1, set_item at 1. unfold button.
    rewrite negb_involutive.
    destruct (send_clicked inp && nonempty (recipient_box inp)); cbv zeta.
    + by destruct (send_alert_action _ _ _ _).
    + reflexivity.
  - rewrite bool_decide_eq_false_2; [done|]. by intros [? ?].
Qed.

Lemma extract_stage_run (ext : externals) cfg inp st :
  extract_stage ext cfg inp st =
  match uploaded inp with
  | Some (name, raw) =>
      if extract_clicked inp && nonempty (question_box inp)
      then extract_action ext cfg name raw (question_box inp) st
      else Run [] st (Ok tt)
  | None => Run [] st (Ok tt)
  end.
Proof.
  unfold extract_stage, button. destruct (uploaded inp) as [[name raw]|].
  - rewrite bool_decide_eq_true_2 by eauto. cbn [andb]. rewrite negb_involutive.
    by destruct (extract_clicked inp && nonempty (question_box inp)).
  - rewrite bool_decide_eq_false_2 by (by intros [? ?]). cbn.
    by rewrite andb_false_r.
Qed.

Lemma page_run (ext : externals) cfg inp st :
  page ext cfg inp st =
  let first := extract_stage ext cfg inp st in
  match outcome first with
  | Ok _ =>
      let second := alert_stage ext cfg inp (final first) in
      Run (trace first ++ trace second) (final second) (outcome second)
  | Raise e => Run (trace first) (final first) (Raise e)
  end.
Proof.
  unfold page, bind. cbv zeta.
  destruct (extract_stage ext cfg inp st) as [t st1 [[]|e]]; cbn [outcome final trace];
    [|done].
  by destruct (alert_stage ext cfg inp st1).
Qed.

Lemma extract_stage_final (ext : externals) cfg inp st :
  final (extract_stage ext cfg inp st) = st \/
  exists text data,
    final (extract_stage ext cfg inp st)
    = <[str "extracted_json" := data]>
        (<[str "question" := PyStr (question_box inp)]>
          (<[str "raw_text" := PyStr (retained_text text)]> st)).
Proof.
  rewrite extract_stage_run. destruct (uploaded inp) as [[name raw]|]; [|by left].
  destruct (extract_clicked inp && nonempty (question_box inp)); [|by left].
  destruct (extract_action_final ext cfg name raw (question_box inp) st)
    as [H | (text & data & _ & _ & H)]; [by left|].
  right. by exists text, data.
Qed.

Lemma extract_stage_raises (ext : externals) cfg inp st e :
  outcome (extract_stage ext cfg inp st) = Raise e ->
  exists name raw, uploaded inp = Some (name, raw) /\
                   outcome (read_document ext name raw st) = Raise e.
Proof.
  rewrite extract_stage_run. destruct (uploaded inp) as [[name raw]|]; [|done].
  destruct (extract_clicked inp && nonempty (question_box inp)); [|done].
  rewrite extract_action_run. cbv zeta.
  destruct (outcome (read_document ext name raw st)) as [text|e'] eqn:Hdoc.
  - by destruct (outcome (ask_groq_json _ _ _ _ _)).
  - intros [= ->]. by exists name, raw.
Qed.

Lemma consistent_three_fields (st : gmap (list N) pyval) (a b c : pyval) :
  consistent (<[str "extracted_json" := a]>
                (<[str "question" := b]> (<[str "raw_text" := c]> st))).
Proof.
  intros _. split.
  - rewrite lookup_insert_ne, lookup_insert_eq by (apply not_eq_sym; distinct_keys).
    eauto.
  - rewrite lookup_insert_ne, lookup_insert_ne, lookup_insert_eq
      by (apply not_eq_sym; distinct_keys).
    eauto.
Qed.

Lemma consistent_recipient (st : gmap (list N) pyval) (v : pyval) :
  consistent st -> consistent (<[str "recipient_email" := v]> st).
Proof.
  destruct recipient_email_ne_fields as (H1 & H2 & H3).
  unfold consistent. by rewrite !lookup_insert_ne.
Qed.

Lemma alert_stage_consistent (ext : externals) cfg inp st :
  consistent st ->
  outcome (alert_stage ext cfg inp st) = Ok tt /\
  consistent (final (alert_stage ext cfg inp st)).
Proof.
  intros Hst. rewrite alert_stage_run.
  destruct (st !! str "extracted_json") as [j|] eqn:Hj; [|done]. cbv zeta.
  destruct (Hst ltac:(eauto)) as [Hq Ht].
  destruct recipient_email_ne_fields as (H1 & H2 & H3).
  destruct (send_clicked inp && nonempty (recipient_box inp)); cbn [outcome final].
  - rewrite send_alert_action_final.
    split; [|by apply consistent_recipient].
    apply send_alert_action_outcome; rewrite lookup_insert_ne by done; eauto.
  - split; [done | by apply consistent_recipient].
Qed.

(** X15: the script keeps the three fields of an extraction together: if the
    session holds either none or all of them before a run, it does so after
    the run; and from such a session a run ends normally unless the reading
    of the uploaded document raises, the only exception a run lets out. *)
Theorem page_keeps_session_consistent
    (ext : externals) (cfg : config) (inp : inputs) (st : gmap (list N) pyval) :
  consistent st ->
  consistent (final (page ext cfg inp st)) /\
  (forall e, outcome (page ext cfg inp st) = Raise e ->
     exists name raw, uploaded inp = Some (name, raw) /\
                      outcome (read_document ext name raw st) = Raise e).
Proof.
  intros Hst. rewrite page_run. cbv zeta.
  assert (consistent (final (extract_stage ext cfg inp st))) as Hfirst.
  { destruct (extract_stage_final ext cfg inp st) as [-> | (text & data & ->)];
      [done | apply consistent_three_fields]. }
  destruct (outcome (extract_stage ext cfg inp st)) as [[]|e] eqn:Hout;
    cbn [outcome final].
  - destruct (alert_stage_consistent ext cfg inp _ Hfirst) as [Hok Hcons].
    split; [done|]. intros e He. rewrite Hok in He. discriminate He.
  - split; [done|]. intros e' [= <-]. by apply (extract_stage_raises ext cfg).
Qed.

Lemma page_keeps_session_consistent_witness :
  consistent (final (page skills_world demo_config extract_visit ∅)).
Proof.
  apply (page_keeps_session_consistent skills_world demo_config extract_visit ∅).
  intros [v Hv]. discriminate Hv.
Defined.

(** X16: a run of the script never removes one of its own keys from the
    session (any key but the one of the recipient's widget, whose lifetime
    is the framework's); in particular, once an extraction is held, the
    session never goes back to holding none. *)
Theorem page_never_removes_keys
    (ext : externals) (cfg : config) (inp : inputs) (st : gmap (list N) pyval)
    (k : list N) :
  k <> str "recipient_email" ->
  is_Some (st !! k) -> is_Some (final (page ext cfg inp st) !! k).
Proof.
  intros _ Hk. rewrite page_run. cbv zeta.
  assert (is_Some (final (extract_stage ext cfg inp st) !! k)) as Hfirst.
  { destruct (extract_stage_final ext cfg inp st) as [-> | (text & data & ->)];
      [done|]. rewrite !lookup_insert_is_Some'. tauto. }
  destruct (outcome (extract_stage ext cfg inp st)) as [[]|e]; cbn [final]; [|done].
  rewrite alert_stage_run.
  destruct (final (extract_stage ext cfg inp st) !! str "extracted_json"); [|done].
  cbv zeta.
  destruct (send_clicked inp && nonempty (recipient_box inp)); cbn [final];
    rewrite ?send_alert_action_final, lookup_insert_is_Some'; tauto.
Qed.

Lemma page_never_removes_keys_witness :
  is_Some (final (page chatty_model_world demo_config extract_visit demo_session)
           !! str "extracted_json").
Proof.
  apply (page_never_removes_keys chatty_model_world demo_config extract_visit
           demo_session (str "extracted_json")).
  - discriminate.
  - vm_compute. eauto.
Defined.

(** X17: without an uploaded file or without a question the "Extract"
    button is disabled: pressing it does nothing, and the run is the run of
    stage 2 alone. *)
Theorem page_extract_disabled
    (ext : externals) (cfg : config) (inp : inputs) (st : gmap (list N) pyval) :
  uploaded inp = None \/ question_box inp = [] ->
  page ext cfg inp st = alert_stage ext cfg inp st.
Proof.
  intros H. rewrite page_run. cbv zeta.
  assert (extract_stage ext cfg inp st = Run [] st (Ok tt)) as ->.
  { rewrite extract_stage_run. destruct H as [-> | ->]; [done|].
    destruct (uploaded inp) as [[name raw]|]; [|done].
    by rewrite andb_false_r. }
  cbn [outcome final trace app]. by destruct (alert_stage ext cfg inp st).
Qed.

Lemma page_extract_disabled_witness :
  page broken_pdf_world demo_config no_question_visit ∅
  = alert_stage broken_pdf_world demo_config no_question_visit ∅.
Proof.
  apply (page_extract_disabled broken_pdf_world demo_config no_question_visit ∅).
  right. reflexivity.
Defined.

Lemma extract_stage_no_post (ext : externals) cfg inp st :
  List.filter is_post (trace (extract_stage ext cfg inp st)) = [].
Proof.
  rewrite extract_stage_run. destruct (uploaded inp) as [[name raw]|]; [|done].
  destruct (extract_clicked inp && nonempty (question_box inp)); [|done].
  apply extract_action_filter; by intros [].
Qed.

(** X18: no request is posted to the webhook in a run in which the "Send
    Alert Mail" button is not pressed or the recipient is empty (the button
    is then disabled), whatever else happens in the run. *)
Theorem page_posts_only_on_send
    (ext : externals) (cfg : config) (inp : inputs) (st : gmap (list N) pyval) :
  send_clicked inp = false \/ recipient_box inp = [] ->
  List.filter is_post (trace (page ext cfg inp st)) = [].
Proof.
  intros H. rewrite page_run. cbv zeta.
  pose proof (extract_stage_no_post ext cfg inp st) as Hfirst.
  destruct (outcome (extract_stage ext cfg inp st)) as [[]|e]; cbn [trace]; [|done].
  rewrite List.filter_app, Hfirst, alert_stage_run. cbn [app].
  destruct (final (extract_stage ext cfg inp st) !! str "extracted_json"); [|done].
  cbv zeta.
  assert (send_clicked inp && nonempty (recipient_box inp) = false) as ->.
  { destruct H as [-> | ->]; [done | apply andb_false_r]. }
  reflexivity.
Qed.

Lemma page_posts_only_on_send_witness :
  List.filter is_post (trace (page skills_world demo_config extract_visit demo_session))
  = [].
Proof.
  apply (page_posts_only_on_send skills_world demo_config extract_visit demo_session).
  left. reflexivity.
Defined.

(** X19: as long as the session holds no extraction, a run in which
    "Extract" is not pressed shows nothing of stage 2 and calls nothing: the
    alert form cannot be reached before a first successful extraction. *)
Theorem page_alert_form_unreachable
    (ext : externals) (cfg : config) (inp : inputs) (st : gmap (list N) pyval) :
  st !! str "extracted_json" = None ->
  extract_clicked inp = false ->
  page ext cfg inp st = Run [] st (Ok tt).
Proof.
  intros Hst Hclick. rewrite page_run. cbv zeta.
  assert (extract_stage ext cfg inp st = Run [] st (Ok tt)) as ->.
  { rewrite extract_stage_run, Hclick. by destruct (uploaded inp) as [[name raw]|]. }
  cbn [outcome final trace app]. by rewrite alert_stage_run, Hst.
Qed.

Lemma page_alert_form_unreachable_witness :
  page skills_world demo_config typing_visit ∅ = Run [] ∅ (Ok tt).
Proof.
  apply (page_alert_form_unreachable skills_world demo_config typing_visit ∅);
    reflexivity.
Defined.



(** ** The status of an unreadable answer *)

Lemma digits_fuel_spec fuel (n : N) (acc : list N) :
  n < 2 ^ N.of_nat fuel ->
  exists ds,
    digits_fuel fuel n acc = ds ++ acc /\
    Forall (fun c => is_digit c = true) ds /\
    forall a : Z,
      fold_left (fun acc c => acc * 10 + Z.of_N (c - 48))%Z ds a
      = (a * 10 ^ Z.of_nat (length ds) + Z.of_N n)%Z.
Proof.
  revert n acc. induction fuel as [|f IH]; intros n acc Hn.
  { exists []. cbn in Hn. split; [done|]. split; [done|]. intros a. cbn. lia. }
  cbn [digits_fuel].
  pose proof (N.div_mod n 10 ltac:(lia)) as Hdm.
  pose proof (N.mod_lt n 10 ltac:(lia)) as Hmod.
  rewrite Nat2N.inj_succ, N.pow_succ_r' in Hn.
  set (d := n mod 10) in *. set (q := n / 10) in *. set (p := 2 ^ N.of_nat f) in *.
  assert (is_digit (48 + d) = true) as Hdigit.
  { unfold is_digit. apply andb_true_intro. split; apply N.leb_le; lia. }
  destruct (N.eqb_spec q 0) as [Hz|Hnz].
  - exists [48 + d]. split; [done|]. split; [by repeat constructor|].
    intros a. cbn [fold_left length]. change (10 ^ Z.of_nat 1)%Z with 10%Z. lia.
  - assert (q < p) as Hsmall by lia.
    destruct (IH q ((48 + d) :: acc) Hsmall) as (ds & Hds & Hall & Hval).
    exists (ds ++ [48 + d]). split; [by rewrite Hds, <- app_assoc|].
    split; [apply Forall_app; split; [done | by repeat constructor]|].
    intros a. rewrite fold_left_app, Hval. cbn [fold_left].
    rewrite length_app. cbn [length]. rewrite Nat2Z.inj_add. change (Z.of_nat 1) with 1%Z.
    rewrite Z.pow_add_r, Z.pow_1_r by lia.
    set (k := (10 ^ Z.of_nat (length ds))%Z). lia.
Qed.

Lemma digits_fuel_suffix fuel (n : N) (acc : list N) :
  acc `suffix_of` digits_fuel fuel n acc.
Proof.
  revert n acc. induction fuel as [|f IH]; intros n acc; cbn [digits_fuel]; [done|].
  destruct (n / 10 =? 0); [by apply suffix_cons_r|].
  etrans; [|apply IH]. by apply suffix_cons_r.
Qed.

(** X21: the status made up for an answer that is not JSON is the text
    HTTP, a space, and the decimal digits of the status code: at least one
    digit, nothing but digits, and read back as a number they give the
    code. *)
Theorem synthesized_status_shows_code (r : response) (e : exn) :
  json_loads (text r) = Raise e ->
  exists digits,
    py_get (response_data r) (str "status") (PyStr (str "Unknown"))
      = Ok (PyStr (str "HTTP " ++ digits)) /\
    digits <> [] /\
    Forall (fun c => is_digit c = true) digits /\
    int_of_digits digits = Z.of_N (status_code r).
Proof.
  intros He. exists (str_of_int (status_code r)).
  split.
  { unfold response_data. rewrite He. unfold synthesized, py_get.
    by rewrite lookup_insert_eq. }
  unfold str_of_int.
  destruct (digits_fuel_spec (S (N.to_nat (N.log2 (status_code r))))
              (status_code r) []) as (ds & Hds & Hall & Hval).
  { rewrite Nat2N.inj_succ, N2Nat.id.
    destruct (N.eq_dec (status_code r) 0) as [->|Hnz]; [done|].
    apply N.log2_spec. lia. }
  rewrite Hds, app_nil_r. split; [|split; [done|]].
  - intros ->. rewrite app_nil_r in Hds. cbn [digits_fuel] in Hds.
    destruct (status_code r / 10 =? 0); [done|].
    pose proof (digits_fuel_suffix (N.to_nat (N.log2 (status_code r)))
                  (status_code r / 10) [48 + status_code r mod 10]) as Hsuf.
    rewrite Hds in Hsuf. apply suffix_length in Hsuf. cbn in Hsuf. lia.
  - unfold int_of_digits. rewrite Hval. lia.
Qed.

Lemma synthesized_status_shows_code_witness :
  exists digits,
    py_get (response_data (Response 502 (str "<html>Bad Gateway</html>")))
      (str "status") (PyStr (str "Unknown"))
      = Ok (PyStr (str "HTTP " ++ digits)) /\
    digits <> [] /\
    Forall (fun c => is_digit c = true) digits /\
    int_of_digits digits = 502%Z.
Proof.
  apply (synthesized_status_shows_code (Response 502 (str "<html>Bad Gateway</html>"))
           (JSONDecodeError (str "<html>Bad Gateway</html>"))).
  vm_compute. reflexivity.
Defined.

(** ** What leaves the session *)

(** X22: the request of the alert action goes to the configured URL with a
    timeout of 60 seconds, and its payload holds the question, the text and
    the JSON of the session and the recipient typed, under its four keys and
    nothing under any other key. *)
Theorem send_alert_action_payload
    (ext : externals) (cfg : config) (recip : list N)
    (st : gmap (list N) pyval) (q t j : pyval) :
  N8N_WEBHOOK_URL cfg <> [] ->
  st !! str "question" = Some q ->
  st !! str "raw_text" = Some t ->
  st !! str "extracted_json" = Some j ->
  exists d,
    List.filter is_post (trace (send_alert_action ext cfg recip st))
      = [RequestsPost (N8N_WEBHOOK_URL cfg) (PyDict d) 60] /\
    d !! str "question" = Some q /\
    d !! str "raw_text" = Some t /\
    d !! str "extracted_json" = Some j /\
    d !! str "recipient_email" = Some (PyStr recip) /\
    (forall k, k <> str "question" -> k <> str "raw_text" ->
               k <> str "extracted_json" -> k <> str "recipient_email" ->
               d !! k = None).
Proof.
  intros Hurl Hq Ht Hj.
  destruct recipient_email_ne_fields as (H1 & H2 & H3).
  eexists. split; [|split; [|split; [|split; [|split]]]].
  - rewrite (send_alert_action_run ext cfg recip st q t j Hurl Hq Ht Hj). cbv zeta.
    destruct (requests_post _ _ _ _) as [r|e]; [|reflexivity].
    pose proof (filter_post_render (response_data r) st) as Hf.
    destruct (outcome (render (response_data r) st)); cbn [trace List.filter is_post].
    + by rewrite Hf.
    + by rewrite List.filter_app, Hf.
  - by rewrite lookup_insert_eq.
  - by rewrite lookup_insert_ne, lookup_insert_eq by (apply not_eq_sym; distinct_keys).
  - by rewrite lookup_insert_ne, lookup_insert_ne, lookup_insert_eq
      by (apply not_eq_sym; distinct_keys).
  - by rewrite lookup_insert_ne, lookup_insert_ne, lookup_insert_ne, lookup_insert_eq
      by (apply not_eq_sym; done || distinct_keys).
  - intros k K1 K2 K3 K4. by rewrite !lookup_insert_ne, lookup_empty.
Qed.

Lemma send_alert_action_payload_witness :
  exists d,
    List.filter is_post
      (trace (send_alert_action server_error_world demo_config (str "ops@example.com")
                demo_session))
      = [RequestsPost (N8N_WEBHOOK_URL demo_config) (PyDict d) 60] /\
    d !! str "question" = Some (PyStr (str "List the skills mentioned.")) /\
    d !! str "raw_text" = Some (PyStr (str "Alice has Python and Go skills.")) /\
    d !! str "extracted_json"
      = Some (PyDict {[ str "risk_level" := PyStr (str "Low") ]}) /\
    d !! str "recipient_email" = Some (PyStr (str "ops@example.com")) /\
    (forall k, k <> str "question" -> k <> str "raw_text" ->
               k <> str "extracted_json" -> k <> str "recipient_email" ->
               d !! k = None).
Proof.
  apply (send_alert_action_payload server_error_world demo_config
           (str "ops@example.com") demo_session).
  - discriminate.
  - vm_compute; reflexivity.
  - vm_compute; reflexivity.
  - vm_compute; reflexivity.
Defined.

(** ** What a run shows *)

(** X23: in the run in which an extraction succeeds, its JSON is shown by
    stage 2 right away, together with the alert form, and the session ends
    with the three fields of this extraction. *)
Theorem page_shows_new_extraction
    (ext : externals) (cfg : config) (inp : inputs) (st : gmap (list N) pyval)
    (name raw text : list N) (data : pyval) :
  uploaded inp = Some (name, raw) ->
  extract_clicked inp = true ->
  question_box inp <> [] ->
  outcome (read_document ext name raw st) = Ok text ->
  outcome (ask_groq_json ext cfg system_prompt (user_prompt (question_box inp) text) st)
    = Ok data ->
  let r := page ext cfg inp st in
  StJson data ∈ trace r /\
  StSubheader (str "Send Conditional Alert Email (via n8n)") ∈ trace r /\
  final r !! str "extracted_json" = Some data /\
  final r !! str "question" = Some (PyStr (question_box inp)) /\
  final r !! str "raw_text" = Some (PyStr (retained_text text)).
Proof.
  intros Hup Hclick Hq Hdoc Hask r. subst r.
  destruct recipient_email_ne_fields as (H1 & H2 & H3).
  rewrite page_run. cbv zeta. rewrite extract_stage_run, Hup, Hclick.
  assert (nonempty (question_box inp) = true) as -> by (by destruct (question_box inp)).
  cbn [andb]. rewrite extract_action_run. cbv zeta. rewrite Hdoc, Hask.
  cbn [outcome final trace]. rewrite alert_stage_run.
  rewrite lookup_insert_eq. cbv zeta.
  set (st1 := <[str "extracted_json" := data]> _).
  assert (forall v, <[str "recipient_email" := v]> st1 !! str "extracted_json" = Some data
                    /\ <[str "recipient_email" := v]> st1 !! str "question"
                       = Some (PyStr (question_box inp))
                    /\ <[str "recipient_email" := v]> st1 !! str "raw_text"
                       = Some (PyStr (retained_text text))) as Hfields.
  { intros v. subst st1. rewrite !(lookup_insert_ne _ (str "recipient_email")) by done.
    split; [by rewrite lookup_insert_eq|].
    split; [by rewrite lookup_insert_ne, lookup_insert_eq
              by (apply not_eq_sym; distinct_keys)|].
    by rewrite lookup_insert_ne, lookup_insert_ne, lookup_insert_eq
      by (apply not_eq_sym; distinct_keys). }
  destruct (send_clicked inp && nonempty (recipient_box inp));
    cbn [trace final]; rewrite ?send_alert_action_final;
    (split; [|split; [|apply Hfields]]);
    rewrite !elem_of_app, !elem_of_cons; auto 10.
Qed.

Lemma page_shows_new_extraction_witness :
  StJson skills_json ∈ trace (page skills_world demo_config extract_visit ∅).
Proof.
  apply (page_shows_new_extraction skills_world demo_config extract_visit ∅
           (str "cv.txt") (str "Alice has Python and Go skills.")
           (str "Alice has Python and Go skills.") skills_json).
  - reflexivity.
  - reflexivity.
  - discriminate.
  - vm_compute; reflexivity.
  - vm_compute; reflexivity.
Defined.

(** X24: when the model or the parsing of its answer fails in a run, the
    error of the action is shown and stage 2 still shows the JSON of the
    earlier extraction held in the session, which is not touched. *)
Theorem page_keeps_showing_previous_extraction
    (ext : externals) (cfg : config) (inp : inputs) (st : gmap (list N) pyval)
    (name raw text : list N) (e : exn) (previous : pyval) :
  uploaded inp = Some (name, raw) ->
  extract_clicked inp = true ->
  question_box inp <> [] ->
  outcome (read_document ext name raw st) = Ok text ->
  outcome (ask_groq_json ext cfg system_prompt (user_prompt (question_box inp) text) st)
    = Raise e ->
  st !! str "extracted_json" = Some previous ->
  let r := page ext cfg inp st in
  StError (str "Extraction failed: " ++ str_exn ext e) ∈ trace r /\
  StJson previous ∈ trace r /\
  final r !! str "extracted_json" = Some previous /\
  final r !! str "question" = st !! str "question" /\
  final r !! str "raw_text" = st !! str "raw_text".
Proof.
  intros Hup Hclick Hq Hdoc Hask Hprev r. subst r.
  destruct recipient_email_ne_fields as (H1 & H2 & H3).
  rewrite page_run. cbv zeta. rewrite extract_stage_run, Hup, Hclick.
  assert (nonempty (question_box inp) = true) as -> by (by destruct (question_box inp)).
  cbn [andb]. rewrite extract_action_run. cbv zeta. rewrite Hdoc, Hask.
  cbn [outcome final trace]. rewrite alert_stage_run, Hprev. cbv zeta.
  destruct (send_clicked inp && nonempty (recipient_box inp));
    cbn [trace final]; rewrite ?send_alert_action_final;
    rewrite !(lookup_insert_ne _ (str "recipient_email")) by done;
    (split; [|split; [|done]]);
    rewrite !elem_of_app, !elem_of_cons, ?elem_of_app, ?elem_of_cons; auto 10.
Qed.

Lemma page_keeps_showing_previous_extraction_witness :
  StJson (PyDict {[ str "risk_level" := PyStr (str "Low") ]})
  ∈ trace (page chatty_model_world demo_config extract_visit demo_session).
Proof.
  apply (page_keeps_showing_previous_extraction chatty_model_world demo_config
           extract_visit demo_session
           (str "cv.txt") (str "Alice has Python and Go skills.")
           (str "Alice has Python and Go skills.")
           (JSONDecodeError (dq "{'a': 1} and {'b': 2}"))
           (PyDict {[ str "risk_level" := PyStr (str "Low") ]})).
  - reflexivity.
  - reflexivity.
  - discriminate.
  - vm_compute; reflexivity.
  - vm_compute; reflexivity.
  - vm_compute; reflexivity.
Defined.

(** ** The text in the prompt and in the session *)

Lemma lstrip_nil (u : list N) :
  lstrip u = [] -> Forall (fun x => isspace x = true) u.
Proof.
  induction u as [|x u IH]; simpl; [done|].
  destruct (isspace x) eqn:Hx; [|done]. intros H. constructor; [done | by apply IH].
Qed.

Lemma lstrip_cons (u : list N) c r :
  lstrip u = c :: r -> c ∈ u /\ isspace c = false.
Proof.
  intros H. split; [|by apply (lstrip_head u c r)].
  destruct (lstrip_suffix u) as [k Hk]. rewrite H in Hk. rewrite Hk.
  apply elem_of_app. right. apply elem_of_cons. by left.
Qed.

(** Stripping the end of two parts: the second part keeps something, or it
    is all white space and the first part is stripped. *)
Lemma rstrip_app_cases (a b : list N) :
  rstrip (a ++ b) = if nonempty (rstrip b) then a ++ rstrip b else rstrip a.
Proof.
  destruct (lstrip (reverse b)) as [|x u] eqn:Hl.
  - assert (rstrip b = []) as -> by (unfold rstrip; by rewrite Hl).
    cbn [nonempty]. apply rstrip_app_spaces, Forall_reverse. by apply lstrip_nil.
  - assert (nonempty (rstrip b) = true) as ->.
    { unfold rstrip. rewrite Hl, reverse_cons. by destruct (reverse u). }
    apply rstrip_app_keep. apply lstrip_cons in Hl as [Hin Hx].
    exists x. by rewrite elem_of_reverse in Hin.
Qed.

(** The user instruction without the outer [strip]. *)
Lemma user_prompt_strip (question text : list N) :
  user_prompt question text
  = drop 1 prompt_head ++ question ++ rstrip (prompt_mid ++ prompt_text text).
Proof.
  unfold user_prompt, strip.
  assert (prompt_head = 10 :: 82 :: drop 2 prompt_head) as Hhead
    by (vm_compute; reflexivity).
  assert (drop 1 prompt_head = 82 :: drop 2 prompt_head) as Hdrop
    by (vm_compute; reflexivity).
  rewrite Hdrop. rewrite Hhead at 1.
  change ((10 :: 82 :: drop 2 prompt_head) ++ ?x) with (10 :: 82 :: drop 2 prompt_head ++ x).
  cbn [lstrip]. change (isspace 10) with true. change (isspace 82) with false. cbv iota.
  set (pre := 82 :: drop 2 prompt_head).
  change (82 :: drop 2 prompt_head ++ ?x) with (pre ++ x).
  replace (pre ++ question ++ prompt_mid ++ prompt_text text ++ prompt_tail)
    with ((pre ++ question ++ prompt_mid ++ prompt_text text) ++ prompt_tail)
    by (by rewrite <- !app_assoc).
  rewrite rstrip_app_spaces by (by repeat constructor).
  rewrite !app_assoc, <- (app_assoc (pre ++ question)).
  rewrite rstrip_app_keep; [done|].
  exists 68. split; [|reflexivity].
  apply elem_of_app. left. vm_compute. repeat constructor.
Qed.

(** The calls to the model in a run of the "Extract" action. *)
Lemma extract_action_llm_calls (ext : externals) cfg name raw question st :
  List.filter is_llm_call (trace (extract_action ext cfg name raw question st))
  = match outcome (read_document ext name raw st) with
    | Ok text => [GroqCreate (GROQ_MODEL cfg) system_prompt (user_prompt question text)]
    | Raise _ => []
    end.
Proof.
  rewrite extract_action_run. cbv zeta.
  assert (List.filter is_llm_call (trace (read_document ext name raw st)) = [])
    as Hdoc by (apply read_document_filter; by intros []).
  destruct (outcome (read_document ext name raw st)) as [text|e]; cbn [trace].
  - destruct (outcome (ask_groq_json _ _ _ _ _)); cbn [trace];
      rewrite ask_groq_json_trace; cbn [List.filter is_llm_call];
      rewrite ?List.filter_app, Hdoc; done.
  - cbn [List.filter is_llm_call]. exact Hdoc.
Qed.

(** What the "Extract" action stores under [raw_text]. *)
Lemma extract_action_stores (ext : externals) cfg name raw question st text :
  outcome (read_document ext name raw st) = Ok text ->
  let r := extract_action ext cfg name raw question st in
  (forall data,
     outcome (ask_groq_json ext cfg system_prompt (user_prompt question text) st) = Ok data ->
     final r !! str "raw_text" = Some (PyStr (retained_text text))) /\
  (forall e,
     outcome (ask_groq_json ext cfg system_prompt (user_prompt question text) st) = Raise e ->
     final r = st).
Proof.
  intros Hdoc r. subst r. rewrite extract_action_run. cbv zeta. rewrite Hdoc.
  split.
  - intros data ->. cbn [final].
    by rewrite lookup_insert_ne, lookup_insert_ne, lookup_insert_eq
      by (apply not_eq_sym; distinct_keys).
  - by intros e ->.
Qed.

(** C3: in every run of the "Extract" action that reads a text, the prompt
    sent to the model is its fixed parts and the question followed by an
    embedded text of at most 20,000 characters, the text stored in the
    session by a successful run has at most 50,000 characters, and the
    embedded text is a prefix of the stored text, itself a prefix of the
    text.  The embedded text is the first 20,000 characters of the text
    less their trailing white space, which [strip] removes; the stored text
    is the first 50,000 characters. *)
Theorem extract_action_truncation
    (ext : externals) (cfg : config) (name raw question text : list N)
    (st : gmap (list N) pyval) :
  outcome (read_document ext name raw st) = Ok text ->
  let r := extract_action ext cfg name raw question st in
  exists embedded stored : list N,
    List.filter is_llm_call (trace r)
      = [GroqCreate (GROQ_MODEL cfg) system_prompt
           (drop 1 prompt_head ++ question
            ++ (if nonempty embedded then prompt_mid else rstrip prompt_mid)
            ++ embedded)] /\
    (forall data,
       outcome (ask_groq_json ext cfg system_prompt (user_prompt question text) st)
         = Ok data ->
       final r !! str "raw_text" = Some (PyStr stored)) /\
    (forall e,
       outcome (ask_groq_json ext cfg system_prompt (user_prompt question text) st)
         = Raise e ->
       final r = st) /\
    embedded = rstrip (take (Z.to_nat 20000) text) /\
    stored = take (Z.to_nat 50000) text /\
    (Z.of_nat (length embedded) <= 20000)%Z /\
    (Z.of_nat (length stored) <= 50000)%Z /\
    embedded `prefix_of` stored /\
    stored `prefix_of` text.
Proof.
  intros Hdoc r. subst r.
  exists (rstrip (prompt_text text)), (retained_text text).
  assert (rstrip (prompt_text text) `prefix_of` prompt_text text) as Hpre
    by apply rstrip_prefix.
  pose proof (slice_to_length 20000 text ltac:(lia)) as Hlen.
  fold (prompt_text text) in Hlen.
  split.
  { rewrite extract_action_llm_calls, Hdoc, user_prompt_strip, rstrip_app_cases.
    destruct (nonempty (rstrip (prompt_text text))) eqn:Hne; [done|].
    destruct (rstrip (prompt_text text)); [|done]. by rewrite app_nil_r. }
  destruct (extract_action_stores ext cfg name raw question st text Hdoc) as [Hok Hfail].
  split; [exact Hok|]. split; [exact Hfail|].
  split; [unfold prompt_text; by rewrite slice_to_nonneg by lia|].
  split; [unfold retained_text; by rewrite slice_to_nonneg by lia|].
  split; [apply prefix_length in Hpre; lia|].
  split; [apply slice_to_length; lia|].
  split; [|apply slice_to_prefix_self].
  etrans; [exact Hpre|]. apply slice_to_prefix. lia.
Qed.

Lemma extract_action_truncation_witness :
  exists embedded stored : list N,
    List.filter is_llm_call
      (trace (extract_action skills_world demo_config (str "cv.txt")
                (str "Alice has Python and Go skills.  ")
                (str "List the skills mentioned.") ∅))
      = [GroqCreate (GROQ_MODEL demo_config) system_prompt
           (drop 1 prompt_head ++ str "List the skills mentioned."
            ++ (if nonempty embedded then prompt_mid else rstrip prompt_mid)
            ++ embedded)] /\
    embedded = str "Alice has Python and Go skills." /\
    stored = str "Alice has Python and Go skills.  " /\
    embedded `prefix_of` stored.
Proof.
  destruct (extract_action_truncation skills_world demo_config (str "cv.txt")
              (str "Alice has Python and Go skills.  ")
              (str "List the skills mentioned.")
              (str "Alice has Python and Go skills.  ") ∅)
    as (embedded & stored & Hcall & _ & _ & He & Hs & _ & _ & Hpre & _).
  - vm_compute; reflexivity.
  - exists embedded, stored. split; [exact Hcall|].
    split; [rewrite He; vm_compute; reflexivity|].
    split; [rewrite Hs; vm_compute; reflexivity | exact Hpre].
Defined.

(** X5: in a successful run of the "Extract" action, a text of at most
    50,000 characters is stored in the session whole and a longer one as
    exactly its first 50,000 characters; the prompt is built from the whole
    text when it has at most 20,000 characters and from exactly its first
    20,000 otherwise, and ends with the header of the document and that
    part of the text, stripped of trailing white space. *)
Theorem extract_action_cuts_exactly
    (ext : externals) (cfg : config) (name raw question text : list N)
    (data : pyval) (st : gmap (list N) pyval) :
  outcome (read_document ext name raw st) = Ok text ->
  outcome (ask_groq_json ext cfg system_prompt (user_prompt question text) st) = Ok data ->
  let r := extract_action ext cfg name raw question st in
  exists used stored : list N,
    List.filter is_llm_call (trace r)
      = [GroqCreate (GROQ_MODEL cfg) system_prompt
           (drop 1 prompt_head ++ question ++ rstrip (prompt_mid ++ used))] /\
    final r !! str "raw_text" = Some (PyStr stored) /\
    used `prefix_of` text /\ stored `prefix_of` text /\
    ((Z.of_nat (length text) <= 20000)%Z -> used = text) /\
    ((20000 < Z.of_nat (length text))%Z -> Z.of_nat (length used) = 20000%Z) /\
    ((Z.of_nat (length text) <= 50000)%Z -> stored = text) /\
    ((50000 < Z.of_nat (length text))%Z -> Z.of_nat (length stored) = 50000%Z).
Proof.
  intros Hdoc Hask r. subst r.
  exists (prompt_text text), (retained_text text).
  destruct (truncation_is_exact text) as (H1 & H2 & H3 & H4).
  split; [by rewrite extract_action_llm_calls, Hdoc, user_prompt_strip|].
  split; [exact (proj1 (extract_action_stores ext cfg name raw question st text Hdoc)
                   data Hask)|].
  split; [apply slice_to_prefix_self|]. split; [apply slice_to_prefix_self|].
  done.
Qed.

Lemma extract_action_cuts_exactly_witness :
  exists used stored : list N,
    final (extract_action skills_world demo_config (str "notes.txt") long_file
             (str "List the skills mentioned.") ∅) !! str "raw_text"
      = Some (PyStr stored) /\
    Z.of_nat (length used) = 20000%Z /\
    Z.of_nat (length stored) = 50000%Z.
Proof.
  assert (outcome (read_document skills_world (str "notes.txt") long_file ∅)
          = Ok long_file) as Hdoc.
  { change (outcome (lift (extract_text_from_txt long_file) ∅) = Ok long_file).
    unfold extract_text_from_txt. rewrite decode_utf8_ascii; [reflexivity|].
    apply Forall_replicate. reflexivity. }
  assert (outcome (ask_groq_json skills_world demo_config system_prompt
                     (user_prompt (str "List the skills mentioned.") long_file) ∅)
          = Ok skills_json) as Hask.
  { rewrite ask_groq_json_run.
    change (outcome (parse_content (Some skills_answer) ∅) = Ok skills_json).
    rewrite parse_content_run.
    assert (json_loads skills_answer = Ok skills_json) as -> by (vm_compute; reflexivity).
    reflexivity. }
  destruct (extract_action_cuts_exactly skills_world demo_config (str "notes.txt")
              long_file (str "List the skills mentioned.") long_file skills_json ∅
              Hdoc Hask)
    as (used & stored & _ & Hst & _ & _ & _ & Hu & _ & Hs).
  exists used, stored. split; [exact Hst|].
  split; [apply Hu | apply Hs]; rewrite long_file_length; lia.
Defined.
